(** * Quant scoring model of the portfolio analyst ([src/lib/quantModel.ts])

    A shallow embedding of the scoring engine that turns a [MarketSnapshot]
    into a [MarketAnalysis], followed by the properties the specification
    states about it.  The pure parts of the code around the engine are
    embedded as well: the routes that call it ([Callers], [Recommend]), the
    sibling model of [analyst.ts] ([Analyst]) and the merge that enriches a
    snapshot ([Fetch]).

    Numbers.  A JavaScript [number] is modelled by [JS.number]: the three
    non-finite values [NaN], [-Infinity], [+Infinity], and the finite values,
    which hold exact rationals.  Comparisons and arithmetic follow IEEE 754
    on the non-finite values (every comparison with [NaN] is false,
    [Infinity - Infinity] is [NaN], ...).  On finite values two arithmetics
    are given.  [JS] computes exactly; [QuantModel] and the modules around it
    are written over it and carry the properties of order, range and shape.
    [Double] computes as the host does, in IEEE 754 binary64 with overflow
    to the infinities; [Binary64] is the engine over it and carries the
    properties that pin the value of a score.  The two agree except where an
    exact value sits on a rounding tie that the doubles fall short of
    ([near_tie_rounds_down], [range_position_rounds_down]).  [Math.round]
    rounds half up, as ECMAScript defines it.  The sign of zero is not
    modelled.

    [number | null] is [option JS.number]; [x == null] is a match on [None]. *)

From Stdlib Require Import ZArith QArith Qround Qabs Lqa Lia.
From Stdlib Require Import List String Ascii Bool DecimalString.
From Stdlib Require Import Sorted Permutation.
From Stdlib Require SpecFloat.
Import ListNotations.

Open Scope Q_scope.

(* ================================================================== *)
(** ** JavaScript numbers *)

Module JS.

Inductive number : Type :=
| NaN
| NegInf
| PosInf
| Fin (q : Q).

Definition isNaN (x : number) : bool :=
  match x with NaN => true | _ => false end.

Definition isFinite (x : number) : bool :=
  match x with Fin _ => true | _ => false end.

(** [a <= b] *)
Definition leb (a b : number) : bool :=
  match a, b with
  | NaN, _ | _, NaN => false
  | NegInf, _ => true
  | _, PosInf => true
  | Fin x, Fin y => Qle_bool x y
  | _, _ => false
  end.

(** [a < b] *)
Definition ltb (a b : number) : bool :=
  match a, b with
  | NaN, _ | _, NaN => false
  | NegInf, NegInf => false
  | NegInf, _ => true
  | PosInf, _ => false
  | Fin _, PosInf => true
  | Fin _, NegInf => false
  | Fin x, Fin y => negb (Qle_bool y x)
  end.

(** [a >= b] and [a > b] *)
Definition geb (a b : number) : bool := leb b a.
Definition gtb (a b : number) : bool := ltb b a.

Definition neg (a : number) : number :=
  match a with
  | NaN => NaN
  | NegInf => PosInf
  | PosInf => NegInf
  | Fin x => Fin (- x)
  end.

Definition add (a b : number) : number :=
  match a, b with
  | NaN, _ | _, NaN => NaN
  | PosInf, NegInf | NegInf, PosInf => NaN
  | PosInf, _ | _, PosInf => PosInf
  | NegInf, _ | _, NegInf => NegInf
  | Fin x, Fin y => Fin (x + y)
  end.

Definition sub (a b : number) : number := add a (neg b).

(** Sign of a finite value against zero. *)
Definition Qsign (x : Q) : comparison := x ?= 0.

(** An infinity of the sign of [c] ([Gt] positive), [NaN] at [Eq]. *)
Definition infOf (c : comparison) : number :=
  match c with Gt => PosInf | Lt => NegInf | Eq => NaN end.

Definition mul (a b : number) : number :=
  match a, b with
  | NaN, _ | _, NaN => NaN
  | Fin x, Fin y => Fin (x * y)
  | PosInf, PosInf | NegInf, NegInf => PosInf
  | PosInf, NegInf | NegInf, PosInf => NegInf
  | PosInf, Fin y | Fin y, PosInf => infOf (Qsign y)
  | NegInf, Fin y | Fin y, NegInf => infOf (CompOpp (Qsign y))
  end.

(** Division; a zero divisor counts as [+0]. *)
Definition div (a b : number) : number :=
  match a, b with
  | NaN, _ | _, NaN => NaN
  | Fin x, Fin y =>
      if Qeq_bool y 0 then infOf (Qsign x) else Fin (x / y)
  | Fin _, (PosInf | NegInf) => Fin 0
  | (PosInf | NegInf), (PosInf | NegInf) => NaN
  | PosInf, Fin y => if Qle_bool 0 y then PosInf else NegInf
  | NegInf, Fin y => if Qle_bool 0 y then NegInf else PosInf
  end.

Definition Math_abs (a : number) : number :=
  match a with
  | NaN => NaN
  | NegInf | PosInf => PosInf
  | Fin x => Fin (Qabs x)
  end.

(** [Math.round]: the nearest integer, ties towards [+Infinity]. *)
Definition Math_round (a : number) : number :=
  match a with
  | Fin x => Fin (inject_Z (Qfloor (x + (1 # 2))))
  | _ => a
  end.

Definition Math_max (a b : number) : number :=
  match a, b with
  | NaN, _ | _, NaN => NaN
  | _, _ => if leb a b then b else a
  end.

Definition Math_min (a b : number) : number :=
  match a, b with
  | NaN, _ | _, NaN => NaN
  | _, _ => if leb a b then a else b
  end.

(** Truthiness of a number: neither [NaN] nor zero. *)
Definition truthy (a : number) : bool :=
  match a with
  | NaN => false
  | Fin x => negb (Qeq_bool x 0)
  | _ => true
  end.

(** What the host supplies and exact rationals cannot express: the value of
    [Math.log10] at a positive finite argument, and the decimal rendering of a
    finite number that is not an integer below 10^21. *)
Class Host : Type := {
  host_log10 : Q -> Q;
  host_toString : Q -> string
}.

Definition Math_log10 `{Host} (a : number) : number :=
  match a with
  | NaN | NegInf => NaN
  | PosInf => PosInf
  | Fin x =>
      match Qsign x with
      | Lt => NaN
      | Eq => NegInf
      | Gt => Fin (host_log10 x)
      end
  end.

Definition Z_toString (z : Z) : string :=
  NilZero.string_of_int (Z.to_int z).

(** Template-literal rendering of a number, [`${x}`]. *)
Definition toString `{Host} (a : number) : string :=
  match a with
  | NaN => "NaN"
  | PosInf => "Infinity"
  | NegInf => "-Infinity"
  | Fin x =>
      let z := Qfloor x in
      if Qeq_bool x (inject_Z z) && (Z.abs z <? 10 ^ 21)%Z
      then Z_toString z
      else host_toString x
  end%string.

End JS.

Declare Scope js_scope.
Delimit Scope js_scope with js.
Bind Scope js_scope with JS.number.
Infix "+" := JS.add : js_scope.
Infix "-" := JS.sub : js_scope.
Infix "*" := JS.mul : js_scope.
Infix "/" := JS.div : js_scope.
Infix "<=?" := JS.leb (at level 70) : js_scope.
Infix "<?" := JS.ltb (at level 70) : js_scope.
Infix ">=?" := JS.geb (at level 70) : js_scope.
Infix ">?" := JS.gtb (at level 70) : js_scope.
Notation "- x" := (JS.neg x) : js_scope.


(* ================================================================== *)
(** ** Data model *)

(** [MarketSnapshot] of [src/lib/fetchYahooRapid.ts]. *)
Record MarketSnapshot : Type := {
  ticker : string;
  companyName : option string;
  (* price & trading *)
  price : option JS.number;
  prevClose : option JS.number;
  dayHigh : option JS.number;
  dayLow : option JS.number;
  fiftyTwoWeekHigh : option JS.number;
  fiftyTwoWeekLow : option JS.number;
  volume : option JS.number;
  avgVolume3m : option JS.number;
  (* returns / distances, in percent *)
  change1dPct : option JS.number;
  changeFrom52wLowPct : option JS.number;
  changeFrom52wHighPct : option JS.number;
  fiftyTwoWeekChangePct : option JS.number;
  (* valuation *)
  marketCap : option JS.number;
  peRatio : option JS.number;
  pegRatio : option JS.number;
  priceToSales : option JS.number;
  priceToBook : option JS.number;
  (* fundamentals, as fractions *)
  profitMargin : option JS.number;
  roe : option JS.number;
  revenueGrowth : option JS.number;
  epsGrowth : option JS.number;
  (* risk *)
  beta : option JS.number
}.

Inductive Rating : Type := BUY | HOLD | SELL.

Definition Rating_toString (r : Rating) : string :=
  match r with BUY => "BUY" | HOLD => "HOLD" | SELL => "SELL" end.

Record MarketAnalysis : Type := {
  rating : Rating;
  conviction : JS.number;
  toneScore : JS.number;
  growthScore : JS.number;
  profitabilityScore : JS.number;
  valuationScore : JS.number;
  balanceScore : JS.number;
  healthScore : JS.number;
  summary : string;
  keyRisks : list string;
  thesis : string
}.

(* ================================================================== *)
(** ** The scoring engine *)

Module QuantModel.
Import JS.
Local Open Scope js_scope.

(* ---------------- helpers ---------------- *)

Definition clamp (v min max : number) : number :=
  Math_min max (Math_max min v).

Definition safeNum (n : option number) : option number :=
  match n with
  | Some x => if isFinite x then Some x else None
  | None => None
  end.

(** The filter shared by both averages: the entries that are numbers and are
    not [NaN], in order. *)
Fixpoint numericScores (scores : list (option number)) : list number :=
  match scores with
  | [] => []
  | Some x :: rest =>
      if isNaN x then numericScores rest else x :: numericScores rest
  | None :: rest => numericScores rest
  end.

Definition sumOf (vals : list number) : number :=
  fold_left add vals (Fin 0).

Definition lengthOf (vals : list number) : number :=
  Fin (inject_Z (Z.of_nat (List.length vals))).

(** Average of non-null scores; if none, 50. *)
Definition avgScores (scores : list (option number)) : number :=
  let vals := numericScores scores in
  match vals with
  | [] => Fin 50
  | _ => Math_round (sumOf vals / lengthOf vals)
  end.

(** Average of non-null scores; if none, null. *)
Definition avgScoresOrNull (scores : list (option number)) : option number :=
  let vals := numericScores scores in
  match vals with
  | [] => None
  | _ => Some (Math_round (sumOf vals / lengthOf vals))
  end.

(** Map a numeric value in [min, max] to [10, 95]; null gives 50. *)
Definition scoreFromBand (value : option number) (min max : number) : number :=
  match value with
  | None => Fin 50
  | Some v =>
      if v <=? min then Fin 10
      else if v >=? max then Fin 95
      else
        let t := (v - min) / (max - min) in
        Fin 10 + t * (Fin 95 - Fin 10)
  end.

(** Same, but null for a null input. *)
Definition scoreFromBandOrNull (value : option number) (min max : number)
  : option number :=
  match value with
  | None => None
  | Some v =>
      if v <=? min then Some (Fin 10)
      else if v >=? max then Some (Fin 95)
      else
        let t := (v - min) / (max - min) in
        Some (Fin 10 + t * (Fin 95 - Fin 10))
  end.

(** P/E curve. *)
Definition scoreFromPeOrNull (peRaw : option number) : option number :=
  match safeNum peRaw with
  | None => None
  | Some pe =>
      if pe <=? Fin 0 then Some (Fin 20)
      else if (pe >=? Fin 5) && (pe <=? Fin 15) then
        let t := (pe - Fin 5) / Fin 10 in
        Some (Math_round (Fin 95 - t * Fin 15))
      else if (pe >? Fin 15) && (pe <=? Fin 30) then
        let t := (pe - Fin 15) / Fin 15 in
        Some (Math_round (Fin 80 - t * Fin 25))
      else if (pe >? Fin 30) && (pe <=? Fin 60) then
        let t := (pe - Fin 30) / Fin 30 in
        Some (Math_round (Fin 55 - t * Fin 15))
      else Some (Fin 35)
  end.

(* ---------------- factor scores ---------------- *)

Section Engine.
Context `{Host}.

Definition scoreValue (s : MarketSnapshot) : number :=
  let peScore := scoreFromPeOrNull (peRatio s) in
  let psScore := scoreFromBandOrNull (priceToSales s) (Fin 1) (Fin 12) in
  let pbScore := scoreFromBandOrNull (priceToBook s) (Fin 0.8) (Fin 6) in
  let pegScore := scoreFromBandOrNull (pegRatio s) (Fin 0.5) (Fin 3) in
  avgScores [peScore; psScore; pbScore; pegScore].

(** The [priceGrowthScore] variable of [scoreGrowth]: the 52-week change
    banded, else the position in the 52-week range banded, else null. *)
Definition priceGrowthScore (s : MarketSnapshot) : option number :=
  match fiftyTwoWeekChangePct s with
  | Some chg => scoreFromBandOrNull (Some chg) (Fin (-40)) (Fin 150)
  | None =>
      match price s, fiftyTwoWeekLow s, fiftyTwoWeekHigh s with
      | Some p, Some lo, Some hi =>
          if hi >? lo then
            let pos := (p - lo) / (hi - lo) in
            scoreFromBandOrNull (Some pos) (Fin 0) (Fin 1)
          else None
      | _, _, _ => None
      end
  end.

Definition scoreGrowth (s : MarketSnapshot) : number :=
  let revFundScore := scoreFromBandOrNull (revenueGrowth s) (Fin 0) (Fin 0.35) in
  let epsFundScore := scoreFromBandOrNull (epsGrowth s) (Fin 0) (Fin 0.45) in
  let fundamentalGrowthScore := avgScoresOrNull [revFundScore; epsFundScore] in
  let priceGrowth := priceGrowthScore s in
  let combined :=
    avgScores
      match fundamentalGrowthScore with
      | Some f => [Some f; priceGrowth]
      | None => [priceGrowth]
      end in
  combined.

Definition scoreQuality (s : MarketSnapshot) : number :=
  let marginScore := scoreFromBandOrNull (profitMargin s) (Fin 0.05) (Fin 0.35) in
  let roeScore := scoreFromBandOrNull (roe s) (Fin 0.08) (Fin 0.35) in
  avgScores [marginScore; roeScore].

Definition scoreMomentum (s : MarketSnapshot) : number :=
  let dayScore := scoreFromBandOrNull (change1dPct s) (Fin (-5)) (Fin 5) in
  let yearScore :=
    scoreFromBandOrNull (fiftyTwoWeekChangePct s) (Fin (-40)) (Fin 150) in
  let distFromHighScore :=
    scoreFromBandOrNull
      match changeFrom52wHighPct s with
      | Some c => Some (- Math_abs c)
      | None => None
      end
      (Fin (-60)) (Fin 0) in
  avgScores [dayScore; yearScore; distFromHighScore].

Definition scoreRisk (s : MarketSnapshot) : number :=
  let betaScore := scoreFromBandOrNull (beta s) (Fin 0.8) (Fin 1.8) in
  let sizeScore :=
    match marketCap s with
    | Some cap =>
        if truthy cap && (cap >? Fin 0) then
          let logCap := Math_log10 cap in
          scoreFromBandOrNull (Some logCap) (Fin 9) (Fin 12)
        else None
    | None => None
    end in
  avgScores [betaScore; sizeScore].

(* ---------------- quant -> app scores ---------------- *)

(** The composite expressions of [computeQuantAnalysis] (balance, health,
    rating, conviction and the caveat list) are named one by one, in source
    order, and assembled in [computeQuantAnalysis] below. *)

Definition balanceOf (valueScore qualityScore growthScore riskScore momentumScore : number)
  : number :=
  Math_round
    (valueScore * Fin 0.25 + qualityScore * Fin 0.25 + growthScore * Fin 0.25
     + riskScore * Fin 0.15 + momentumScore * Fin 0.10).

Definition healthOf (valueScore qualityScore growthScore momentumScore riskScore : number)
  : number :=
  Math_round
    (valueScore * Fin 0.20 + qualityScore * Fin 0.25 + growthScore * Fin 0.30
     + momentumScore * Fin 0.15 + riskScore * Fin 0.10).

Definition ratingOf (healthScore balanceScore : number) : Rating :=
  if (healthScore >=? Fin 72) && (balanceScore >=? Fin 60) then BUY
  else if (healthScore <=? Fin 40) || (balanceScore <=? Fin 40) then SELL
  else HOLD.

Definition convictionOf (healthScore : number) : number :=
  let distanceFromNeutral := Math_abs (healthScore - Fin 50) in
  clamp (Fin 35 + distanceFromNeutral) (Fin 10) (Fin 90).

Definition isNull {A : Type} (o : option A) : bool :=
  match o with None => true | Some _ => false end.

Definition riskProfitability : string :=
  "Profitability metrics (margin/ROE) are partially missing or estimated – interpret profitability-related scores with some caution.".

Definition riskGrowth : string :=
  "Growth fundamentals are incomplete, so the growth score leans more heavily on price-based momentum and position in the 52-week range.".

Definition riskGeneric : string :=
  "Scores are based on trailing data and do not incorporate forward guidance, breaking news, or macro shocks.".

(** The three conditional pushes onto [keyRisks], in source order. *)
Definition keyRisksOf (snapshot : MarketSnapshot) : list string :=
  let k0 : list string := [] in
  let k1 :=
    if isNull (profitMargin snapshot) || isNull (roe snapshot)
    then k0 ++ [riskProfitability] else k0 in
  let k2 :=
    if isNull (revenueGrowth snapshot) || isNull (epsGrowth snapshot)
    then k1 ++ [riskGrowth] else k1 in
  if (List.length k2 =? 0)%nat then k2 ++ [riskGeneric] else k2.

Definition computeQuantAnalysis (snapshot : MarketSnapshot) : MarketAnalysis :=
  let valueScore := scoreValue snapshot in
  let growthScore := scoreGrowth snapshot in
  let qualityScore := scoreQuality snapshot in
  let momentumScore := scoreMomentum snapshot in
  let riskScore := scoreRisk snapshot in
  let toneScore := momentumScore in
  let valuationScore := valueScore in
  let profitabilityScore := qualityScore in
  let balanceScore :=
    balanceOf valueScore qualityScore growthScore riskScore momentumScore in
  let healthScore :=
    healthOf valueScore qualityScore growthScore momentumScore riskScore in
  let rating := ratingOf healthScore balanceScore in
  let conviction := convictionOf healthScore in
  let name :=
    match companyName snapshot with
    | Some n => n
    | None => ticker snapshot
    end in
  let summary :=
    ("Quantitative snapshot for " ++ name ++ " (" ++ ticker snapshot
     ++ ") using valuation (P/E, PEG, P/S, P/B), growth (fundamental & price-based), profitability (margin & ROE), momentum, and basic risk proxies.")%string in
  let thesis :=
    ("The composite health score of " ++ toString healthScore
     ++ " blends " ++ toString growthScore ++ " for growth, "
     ++ toString profitabilityScore ++ " for profitability, "
     ++ toString valuationScore ++ " for valuation, and "
     ++ toString riskScore
     ++ " for risk characteristics. This currently supports a "
     ++ Rating_toString rating ++ " stance with about "
     ++ toString conviction
     ++ "% conviction given the available data.")%string in
  {| rating := rating;
     conviction := conviction;
     toneScore := toneScore;
     growthScore := growthScore;
     profitabilityScore := profitabilityScore;
     valuationScore := valuationScore;
     balanceScore := balanceScore;
     healthScore := healthScore;
     summary := summary;
     keyRisks := keyRisksOf snapshot;
     thesis := thesis |}.

End Engine.

End QuantModel.

(* ================================================================== *)
(** ** Specification-side definitions and sample inputs *)

Module Spec.
Import JS.

(** A score that is a finite number between [lo] and [hi]. *)
Definition within (lo hi : Q) (x : number) : Prop :=
  match x with
  | Fin q => lo <= q /\ q <= hi
  | _ => False
  end.

(** An entry of a score list: null, [NaN] (both dropped by the averages), or
    a finite number between [lo] and [hi]. *)
Definition entryWithin (lo hi : Q) (o : option number) : Prop :=
  match o with
  | None | Some NaN => True
  | Some x => within lo hi x
  end.

(** The data-model invariant of a field: absent, or a finite number. *)
Definition finiteOrAbsent (o : option number) : Prop :=
  match o with
  | None | Some (Fin _) => True
  | Some _ => False
  end.

(** Every optional numeric field of the snapshot is absent. *)
Definition allNumericAbsent (s : MarketSnapshot) : Prop :=
  price s = None /\ prevClose s = None /\ dayHigh s = None /\ dayLow s = None
  /\ fiftyTwoWeekHigh s = None /\ fiftyTwoWeekLow s = None
  /\ volume s = None /\ avgVolume3m s = None
  /\ change1dPct s = None /\ changeFrom52wLowPct s = None
  /\ changeFrom52wHighPct s = None /\ fiftyTwoWeekChangePct s = None
  /\ marketCap s = None /\ peRatio s = None /\ pegRatio s = None
  /\ priceToSales s = None /\ priceToBook s = None
  /\ profitMargin s = None /\ roe s = None
  /\ revenueGrowth s = None /\ epsGrowth s = None /\ beta s = None.

(** Rounding half up, on rationals. *)
Definition roundQ (x : Q) : Q := inject_Z (Qfloor (x + (1 # 2))).

(** The band of the specification on a present value:
    [10] at or below [lo], [95] at or above [hi], linear in between. *)
Definition bandQ (lo hi v : Q) : Q :=
  if Qle_bool v lo then 10
  else if Qle_bool hi v then 95
  else 10 + ((v - lo) / (hi - lo)) * 85.

(** The P/E curve on a finite ratio, branch by branch as
    [scoreFromPeOrNull] takes them. *)
Definition peCurve (pe : Q) : Q :=
  if Qle_bool pe 0 then 20
  else if Qle_bool 5 pe && Qle_bool pe 15
  then roundQ (95 - (pe - 5) / 10 * 15)
  else if negb (Qle_bool pe 15) && Qle_bool pe 30
  then roundQ (80 - (pe - 15) / 15 * 25)
  else if negb (Qle_bool pe 30) && Qle_bool pe 60
  then roundQ (55 - (pe - 30) / 30 * 15)
  else 35.

(** The composite blends as the specification writes them. *)
Definition balanceSpec (value quality growth risk momentum : Q) : Q :=
  roundQ (0.25 * value + 0.25 * quality + 0.25 * growth
          + 0.15 * risk + 0.10 * momentum).

Definition healthSpec (value quality growth momentum risk : Q) : Q :=
  roundQ (0.20 * value + 0.25 * quality + 0.30 * growth
          + 0.15 * momentum + 0.10 * risk).

(** A host for running the engine on concrete snapshots: the base-10
    logarithm is approximated through the integer base-2 logarithm and a
    non-integer is rendered as a fraction. *)
Definition sampleHost : Host :=
  {| host_log10 := fun x => inject_Z (Z.log2 (Qfloor x)) * (30103 # 100000);
     host_toString := fun x =>
       (Z_toString (Qnum x) ++ "/" ++ Z_toString (Zpos (Qden x)))%string |}.

(** A snapshot that carries only its identity. *)
Definition blankSnapshot (t : string) (n : option string) : MarketSnapshot :=
  {| ticker := t; companyName := n;
     price := None; prevClose := None; dayHigh := None; dayLow := None;
     fiftyTwoWeekHigh := None; fiftyTwoWeekLow := None;
     volume := None; avgVolume3m := None;
     change1dPct := None; changeFrom52wLowPct := None;
     changeFrom52wHighPct := None; fiftyTwoWeekChangePct := None;
     marketCap := None; peRatio := None; pegRatio := None;
     priceToSales := None; priceToBook := None;
     profitMargin := None; roe := None;
     revenueGrowth := None; epsGrowth := None; beta := None |}.

(** The blank snapshot with a price-to-sales ratio. *)
Definition withPriceToSales (v : option number) (t : string) : MarketSnapshot :=
  {| ticker := t; companyName := None;
     price := None; prevClose := None; dayHigh := None; dayLow := None;
     fiftyTwoWeekHigh := None; fiftyTwoWeekLow := None;
     volume := None; avgVolume3m := None;
     change1dPct := None; changeFrom52wLowPct := None;
     changeFrom52wHighPct := None; fiftyTwoWeekChangePct := None;
     marketCap := None; peRatio := None; pegRatio := None;
     priceToSales := v; priceToBook := None;
     profitMargin := None; roe := None;
     revenueGrowth := None; epsGrowth := None; beta := None |}.

(** The blank snapshot with a profit margin and a return on equity. *)
Definition withProfitability (margin equity : option number) (t : string)
  : MarketSnapshot :=
  {| ticker := t; companyName := None;
     price := None; prevClose := None; dayHigh := None; dayLow := None;
     fiftyTwoWeekHigh := None; fiftyTwoWeekLow := None;
     volume := None; avgVolume3m := None;
     change1dPct := None; changeFrom52wLowPct := None;
     changeFrom52wHighPct := None; fiftyTwoWeekChangePct := None;
     marketCap := None; peRatio := None; pegRatio := None;
     priceToSales := None; priceToBook := None;
     profitMargin := margin; roe := equity;
     revenueGrowth := None; epsGrowth := None; beta := None |}.

(** A snapshot with its P/E ratio replaced. *)
Definition withPeRatio (v : option number) (s : MarketSnapshot)
  : MarketSnapshot :=
  {| ticker := ticker s; companyName := companyName s;
     price := price s; prevClose := prevClose s;
     dayHigh := dayHigh s; dayLow := dayLow s;
     fiftyTwoWeekHigh := fiftyTwoWeekHigh s;
     fiftyTwoWeekLow := fiftyTwoWeekLow s;
     volume := volume s; avgVolume3m := avgVolume3m s;
     change1dPct := change1dPct s;
     changeFrom52wLowPct := changeFrom52wLowPct s;
     changeFrom52wHighPct := changeFrom52wHighPct s;
     fiftyTwoWeekChangePct := fiftyTwoWeekChangePct s;
     marketCap := marketCap s; peRatio := v; pegRatio := pegRatio s;
     priceToSales := priceToSales s; priceToBook := priceToBook s;
     profitMargin := profitMargin s; roe := roe s;
     revenueGrowth := revenueGrowth s; epsGrowth := epsGrowth s;
     beta := beta s |}.

(** The maximally neutral analysis as the specification describes it. *)
Definition maximallyNeutral (a : MarketAnalysis) : Prop :=
  toneScore a = Fin 50 /\ growthScore a = Fin 50
  /\ profitabilityScore a = Fin 50 /\ valuationScore a = Fin 50
  /\ balanceScore a = Fin 50 /\ healthScore a = Fin 50
  /\ rating a = HOLD /\ conviction a = Fin 35
  /\ keyRisks a = [QuantModel.riskGeneric].

(** Two snapshots agree on every field the engine reads. *)
Definition sameInputs (s1 s2 : MarketSnapshot) : Prop :=
  ticker s1 = ticker s2 /\ companyName s1 = companyName s2
  /\ price s1 = price s2
  /\ fiftyTwoWeekHigh s1 = fiftyTwoWeekHigh s2
  /\ fiftyTwoWeekLow s1 = fiftyTwoWeekLow s2
  /\ change1dPct s1 = change1dPct s2
  /\ changeFrom52wHighPct s1 = changeFrom52wHighPct s2
  /\ fiftyTwoWeekChangePct s1 = fiftyTwoWeekChangePct s2
  /\ marketCap s1 = marketCap s2 /\ peRatio s1 = peRatio s2
  /\ pegRatio s1 = pegRatio s2 /\ priceToSales s1 = priceToSales s2
  /\ priceToBook s1 = priceToBook s2
  /\ profitMargin s1 = profitMargin s2 /\ roe s1 = roe s2
  /\ revenueGrowth s1 = revenueGrowth s2 /\ epsGrowth s1 = epsGrowth s2
  /\ beta s1 = beta s2.

(** A company with saturated fundamentals, weak momentum and risk proxies,
    and a P/E of [pe]. *)
Definition strongFundamentals (pe : Q) : MarketSnapshot :=
  {| ticker := "ACME"; companyName := Some "Acme Corp"%string;
     price := None; prevClose := None; dayHigh := None; dayLow := None;
     fiftyTwoWeekHigh := None; fiftyTwoWeekLow := None;
     volume := None; avgVolume3m := None;
     change1dPct := Some (Fin (-5)); changeFrom52wLowPct := None;
     changeFrom52wHighPct := None; fiftyTwoWeekChangePct := None;
     marketCap := None; peRatio := Some (Fin pe); pegRatio := None;
     priceToSales := None; priceToBook := None;
     profitMargin := Some (Fin 1); roe := Some (Fin 1);
     revenueGrowth := Some (Fin 1); epsGrowth := Some (Fin 1);
     beta := Some (Fin 0.8) |}.

End Spec.

(* ================================================================== *)
(** ** Double-precision arithmetic *)

(** The arithmetic of the engine as the JavaScript host performs it.  A
    finite [JS.number] holds the exact value of a double; every primitive
    reads its operands as doubles (a rational that is not one, such as the
    decimal literal [0.35], stands for the double nearest to it, ties to
    even, as the literal does in the source) and the four arithmetic
    operations are the IEEE 754 binary64 ones of the standard library's
    [SpecFloat].  The sign of zero is not kept. *)

Module Double.
Import JS.

(** Scores and fields computed in doubles; the same values as [JS.number]. *)
Definition number : Type := JS.number.

Definition prec : Z := 53.
Definition emax : Z := 1024.

Definition pow2 (e : Z) : Q :=
  match e with
  | Z0 => 1
  | Zpos p => inject_Z (Z.pow_pos 2 p)
  | Zneg p => 1 # (Pos.pow 2 p)
  end.

(** The exact value of a float. *)
Definition ofFloat (f : SpecFloat.spec_float) : number :=
  match f with
  | SpecFloat.S754_nan => NaN
  | SpecFloat.S754_infinity true => NegInf
  | SpecFloat.S754_infinity false => PosInf
  | SpecFloat.S754_zero _ => Fin 0
  | SpecFloat.S754_finite s m e =>
      Fin (Qred (inject_Z (if s then Zneg m else Zpos m) * pow2 e))
  end.

Definition ofZ (z : Z) : SpecFloat.spec_float :=
  match z with
  | Z0 => SpecFloat.S754_zero false
  | Zpos p => SpecFloat.S754_finite false p 0
  | Zneg p => SpecFloat.S754_finite true p 0
  end.

(** The double nearest to a number: the correctly rounded quotient of the
    numerator by the denominator, [Infinity] past the largest double. *)
Definition toFloat (a : number) : SpecFloat.spec_float :=
  match a with
  | NaN => SpecFloat.S754_nan
  | PosInf => SpecFloat.S754_infinity false
  | NegInf => SpecFloat.S754_infinity true
  | Fin q => SpecFloat.SFdiv prec emax (ofZ (Qnum q)) (ofZ (Zpos (Qden q)))
  end.

Definition dbl (a : number) : number := ofFloat (toFloat a).

(** Classes of floats: not a number; finite and not zero; finite. *)
Definition isnan (f : SpecFloat.spec_float) : bool :=
  match f with SpecFloat.S754_nan => true | _ => false end.

Definition isnormal (f : SpecFloat.spec_float) : bool :=
  match f with SpecFloat.S754_finite _ _ _ => true | _ => false end.

Definition isfinite (f : SpecFloat.spec_float) : bool :=
  match f with
  | SpecFloat.S754_zero _ | SpecFloat.S754_finite _ _ _ => true
  | _ => false
  end.

Definition add (a b : number) : number :=
  ofFloat (SpecFloat.SFadd prec emax (toFloat a) (toFloat b)).

Definition sub (a b : number) : number :=
  ofFloat (SpecFloat.SFsub prec emax (toFloat a) (toFloat b)).

Definition mul (a b : number) : number :=
  ofFloat (SpecFloat.SFmul prec emax (toFloat a) (toFloat b)).

Definition div (a b : number) : number :=
  ofFloat (SpecFloat.SFdiv prec emax (toFloat a) (toFloat b)).

(** Comparisons, sign changes and [Math.round] are exact on doubles. *)
Definition leb (a b : number) : bool := JS.leb (dbl a) (dbl b).
Definition ltb (a b : number) : bool := JS.ltb (dbl a) (dbl b).
Definition geb (a b : number) : bool := leb b a.
Definition gtb (a b : number) : bool := ltb b a.
Definition neg (a : number) : number := JS.neg (dbl a).
Definition Math_abs (a : number) : number := JS.Math_abs (dbl a).
Definition Math_round (a : number) : number := JS.Math_round (dbl a).
Definition Math_max (a b : number) : number := JS.Math_max (dbl a) (dbl b).
Definition Math_min (a b : number) : number := JS.Math_min (dbl a) (dbl b).
Definition isFinite (a : number) : bool := JS.isFinite (dbl a).
Definition truthy (a : number) : bool := JS.truthy (dbl a).
Definition Math_log10 `{Host} (a : number) : number := JS.Math_log10 (dbl a).

End Double.

Declare Scope double_scope.
Delimit Scope double_scope with dbl.
Bind Scope double_scope with Double.number.
Infix "+" := Double.add : double_scope.
Infix "-" := Double.sub : double_scope.
Infix "*" := Double.mul : double_scope.
Infix "/" := Double.div : double_scope.
Infix "<=?" := Double.leb (at level 70) : double_scope.
Infix "<?" := Double.ltb (at level 70) : double_scope.
Infix ">=?" := Double.geb (at level 70) : double_scope.
Infix ">?" := Double.gtb (at level 70) : double_scope.
Notation "- x" := (Double.neg x) : double_scope.

(* ================================================================== *)
(** ** The scoring engine in double precision *)

(** [src/lib/quantModel.ts] once more, function by function, with the
    arithmetic of [Double] in place of the exact one.  The parts without
    arithmetic (the filter of the averages, the caveats) are those of
    [QuantModel]. *)

Module Binary64.
Import JS.
Local Open Scope double_scope.

Definition number : Type := Double.number.

(* ---------------- helpers ---------------- *)

Definition clamp (v min max : number) : number :=
  Double.Math_min max (Double.Math_max min v).

Definition safeNum (n : option number) : option number :=
  match n with
  | Some x => if Double.isFinite x then Some x else None
  | None => None
  end.

Definition sumOf (vals : list number) : number :=
  fold_left Double.add vals (Fin 0).

Definition lengthOf (vals : list number) : number :=
  Fin (inject_Z (Z.of_nat (List.length vals))).

(** Average of non-null scores; if none, 50. *)
Definition avgScores (scores : list (option number)) : number :=
  let vals := QuantModel.numericScores scores in
  match vals with
  | [] => Fin 50
  | _ => Double.Math_round (sumOf vals / lengthOf vals)
  end.

(** Average of non-null scores; if none, null. *)
Definition avgScoresOrNull (scores : list (option number)) : option number :=
  let vals := QuantModel.numericScores scores in
  match vals with
  | [] => None
  | _ => Some (Double.Math_round (sumOf vals / lengthOf vals))
  end.

(** Map a numeric value in [min, max] to [10, 95]; null gives 50. *)
Definition scoreFromBand (value : option number) (min max : number) : number :=
  match value with
  | None => Fin 50
  | Some v =>
      if v <=? min then Fin 10
      else if v >=? max then Fin 95
      else
        let t := (v - min) / (max - min) in
        Fin 10 + t * (Fin 95 - Fin 10)
  end.

(** Same, but null for a null input. *)
Definition scoreFromBandOrNull (value : option number) (min max : number)
  : option number :=
  match value with
  | None => None
  | Some v =>
      if v <=? min then Some (Fin 10)
      else if v >=? max then Some (Fin 95)
      else
        let t := (v - min) / (max - min) in
        Some (Fin 10 + t * (Fin 95 - Fin 10))
  end.

(** P/E curve. *)
Definition scoreFromPeOrNull (peRaw : option number) : option number :=
  match safeNum peRaw with
  | None => None
  | Some pe =>
      if pe <=? Fin 0 then Some (Fin 20)
      else if (pe >=? Fin 5) && (pe <=? Fin 15) then
        let t := (pe - Fin 5) / Fin 10 in
        Some (Double.Math_round (Fin 95 - t * Fin 15))
      else if (pe >? Fin 15) && (pe <=? Fin 30) then
        let t := (pe - Fin 15) / Fin 15 in
        Some (Double.Math_round (Fin 80 - t * Fin 25))
      else if (pe >? Fin 30) && (pe <=? Fin 60) then
        let t := (pe - Fin 30) / Fin 30 in
        Some (Double.Math_round (Fin 55 - t * Fin 15))
      else Some (Fin 35)
  end.

(* ---------------- factor scores ---------------- *)

Section Engine.
Context `{Host}.

Definition scoreValue (s : MarketSnapshot) : number :=
  let peScore := scoreFromPeOrNull (peRatio s) in
  let psScore := scoreFromBandOrNull (priceToSales s) (Fin 1) (Fin 12) in
  let pbScore := scoreFromBandOrNull (priceToBook s) (Fin 0.8) (Fin 6) in
  let pegScore := scoreFromBandOrNull (pegRatio s) (Fin 0.5) (Fin 3) in
  avgScores [peScore; psScore; pbScore; pegScore].

(** The [fundamentalGrowthScore] constant of [scoreGrowth]. *)
Definition fundamentalGrowthScore (s : MarketSnapshot) : option number :=
  let revFundScore := scoreFromBandOrNull (revenueGrowth s) (Fin 0) (Fin 0.35) in
  let epsFundScore := scoreFromBandOrNull (epsGrowth s) (Fin 0) (Fin 0.45) in
  avgScoresOrNull [revFundScore; epsFundScore].

(** The [priceGrowthScore] variable of [scoreGrowth]. *)
Definition priceGrowthScore (s : MarketSnapshot) : option number :=
  match fiftyTwoWeekChangePct s with
  | Some chg => scoreFromBandOrNull (Some chg) (Fin (-40)) (Fin 150)
  | None =>
      match price s, fiftyTwoWeekLow s, fiftyTwoWeekHigh s with
      | Some p, Some lo, Some hi =>
          if hi >? lo then
            let pos := (p - lo) / (hi - lo) in
            scoreFromBandOrNull (Some pos) (Fin 0) (Fin 1)
          else None
      | _, _, _ => None
      end
  end.

Definition scoreGrowth (s : MarketSnapshot) : number :=
  let priceGrowth := priceGrowthScore s in
  let combined :=
    avgScores
      match fundamentalGrowthScore s with
      | Some f => [Some f; priceGrowth]
      | None => [priceGrowth]
      end in
  combined.

Definition scoreQuality (s : MarketSnapshot) : number :=
  let marginScore := scoreFromBandOrNull (profitMargin s) (Fin 0.05) (Fin 0.35) in
  let roeScore := scoreFromBandOrNull (roe s) (Fin 0.08) (Fin 0.35) in
  avgScores [marginScore; roeScore].

Definition scoreMomentum (s : MarketSnapshot) : number :=
  let dayScore := scoreFromBandOrNull (change1dPct s) (Fin (-5)) (Fin 5) in
  let yearScore :=
    scoreFromBandOrNull (fiftyTwoWeekChangePct s) (Fin (-40)) (Fin 150) in
  let distFromHighScore :=
    scoreFromBandOrNull
      match changeFrom52wHighPct s with
      | Some c => Some (- Double.Math_abs c)
      | None => None
      end
      (Fin (-60)) (Fin 0) in
  avgScores [dayScore; yearScore; distFromHighScore].

Definition scoreRisk (s : MarketSnapshot) : number :=
  let betaScore := scoreFromBandOrNull (beta s) (Fin 0.8) (Fin 1.8) in
  let sizeScore :=
    match marketCap s with
    | Some cap =>
        if Double.truthy cap && (cap >? Fin 0) then
          let logCap := Double.Math_log10 cap in
          scoreFromBandOrNull (Some logCap) (Fin 9) (Fin 12)
        else None
    | None => None
    end in
  avgScores [betaScore; sizeScore].

(* ---------------- quant -> app scores ---------------- *)

Definition balanceOf (valueScore qualityScore growthScore riskScore momentumScore : number)
  : number :=
  Double.Math_round
    (valueScore * Fin 0.25 + qualityScore * Fin 0.25 + growthScore * Fin 0.25
     + riskScore * Fin 0.15 + momentumScore * Fin 0.10).

Definition healthOf (valueScore qualityScore growthScore momentumScore riskScore : number)
  : number :=
  Double.Math_round
    (valueScore * Fin 0.20 + qualityScore * Fin 0.25 + growthScore * Fin 0.30
     + momentumScore * Fin 0.15 + riskScore * Fin 0.10).

Definition ratingOf (healthScore balanceScore : number) : Rating :=
  if (healthScore >=? Fin 72) && (balanceScore >=? Fin 60) then BUY
  else if (healthScore <=? Fin 40) || (balanceScore <=? Fin 40) then SELL
  else HOLD.

Definition convictionOf (healthScore : number) : number :=
  let distanceFromNeutral := Double.Math_abs (healthScore - Fin 50) in
  clamp (Fin 35 + distanceFromNeutral) (Fin 10) (Fin 90).

Definition computeQuantAnalysis (snapshot : MarketSnapshot) : MarketAnalysis :=
  let valueScore := scoreValue snapshot in
  let growthScore := scoreGrowth snapshot in
  let qualityScore := scoreQuality snapshot in
  let momentumScore := scoreMomentum snapshot in
  let riskScore := scoreRisk snapshot in
  let toneScore := momentumScore in
  let valuationScore := valueScore in
  let profitabilityScore := qualityScore in
  let balanceScore :=
    balanceOf valueScore qualityScore growthScore riskScore momentumScore in
  let healthScore :=
    healthOf valueScore qualityScore growthScore momentumScore riskScore in
  let rating := ratingOf healthScore balanceScore in
  let conviction := convictionOf healthScore in
  let name :=
    match companyName snapshot with
    | Some n => n
    | None => ticker snapshot
    end in
  let summary :=
    ("Quantitative snapshot for " ++ name ++ " (" ++ ticker snapshot
     ++ ") using valuation (P/E, PEG, P/S, P/B), growth (fundamental & price-based), profitability (margin & ROE), momentum, and basic risk proxies.")%string in
  let thesis :=
    ("The composite health score of " ++ toString healthScore
     ++ " blends " ++ toString growthScore ++ " for growth, "
     ++ toString profitabilityScore ++ " for profitability, "
     ++ toString valuationScore ++ " for valuation, and "
     ++ toString riskScore
     ++ " for risk characteristics. This currently supports a "
     ++ Rating_toString rating ++ " stance with about "
     ++ toString conviction
     ++ "% conviction given the available data.")%string in
  {| rating := rating;
     conviction := conviction;
     toneScore := toneScore;
     growthScore := growthScore;
     profitabilityScore := profitabilityScore;
     valuationScore := valuationScore;
     balanceScore := balanceScore;
     healthScore := healthScore;
     summary := summary;
     keyRisks := QuantModel.keyRisksOf snapshot;
     thesis := thesis |}.

End Engine.

End Binary64.

(* ================================================================== *)
(** ** The specification's formulas in double precision *)

(** The growth fallback as the specification words it, evaluated with the
    arithmetic of [Double]. *)

Module Spec64.
Import JS.
Local Open Scope double_scope.

Definition number : Type := Double.number.

(** A value banded over [[lo, hi]]: [10] at or below [lo], [95] at or above
    [hi], linear in between. *)
Definition band (lo hi v : number) : number :=
  if v <=? lo then Fin 10
  else if v >=? hi then Fin 95
  else Fin 10 + ((v - lo) / (hi - lo)) * Fin 85.

(** The rounded mean of a list of scores. *)
Definition average (vals : list number) : number :=
  Double.Math_round
    (fold_left Double.add vals (Fin 0)
     / Fin (inject_Z (Z.of_nat (List.length vals)))).

(** Stage A: fundamental growth, absent only when both inputs are. *)
Definition fundamentalGrowthSpec (rev eps : option number) : option number :=
  match rev, eps with
  | Some r, Some e =>
      Some (average [band (Fin 0) (Fin 0.35) r; band (Fin 0) (Fin 0.45) e])
  | Some r, None => Some (average [band (Fin 0) (Fin 0.35) r])
  | None, Some e => Some (average [band (Fin 0) (Fin 0.45) e])
  | None, None => None
  end.

(** Stage B: price growth, from the 52-week change or else from the position
    in the 52-week range. *)
Definition priceGrowthSpec (chg p lo hi : option number) : option number :=
  match chg with
  | Some c => Some (band (Fin (-40)) (Fin 150) c)
  | None =>
      match p, lo, hi with
      | Some p, Some lo, Some hi =>
          if hi >? lo
          then Some (band (Fin 0) (Fin 1) ((p - lo) / (hi - lo)))
          else None
      | _, _, _ => None
      end
  end.

(** A stage result is present when it is a number: neither null nor [NaN]. *)
Definition present (o : option number) : option number :=
  match o with
  | Some x => if isNaN x then None else Some x
  | None => None
  end.

(** The growth score: the average of the stage results that are present,
    50 when neither is. *)
Definition growthSpec (fundamental priceBased : option number) : number :=
  match present fundamental, present priceBased with
  | Some f, Some g => average [f; g]
  | Some f, None => average [f]
  | None, Some g => average [g]
  | None, None => Fin 50
  end.

(** The snapshot of a stock that trades at [p] in a 52-week range from [lo]
    to [hi] and reports its revenue growth [rev] and nothing else. *)
Definition inRange (rev : option number) (p lo hi : Q) : MarketSnapshot :=
  {| ticker := "ACME"; companyName := None;
     price := Some (Fin p); prevClose := None; dayHigh := None; dayLow := None;
     fiftyTwoWeekHigh := Some (Fin hi); fiftyTwoWeekLow := Some (Fin lo);
     volume := None; avgVolume3m := None;
     change1dPct := None; changeFrom52wLowPct := None;
     changeFrom52wHighPct := None; fiftyTwoWeekChangePct := None;
     marketCap := None; peRatio := None; pegRatio := None;
     priceToSales := None; priceToBook := None;
     profitMargin := None; roe := None;
     revenueGrowth := rev; epsGrowth := None; beta := None |}.

(** A snapshot whose exact health blend is the tie 71.5 and whose blend in
    doubles falls just below it. *)
Definition nearTie : MarketSnapshot :=
  {| ticker := "ACME"; companyName := None;
     price := None; prevClose := None; dayHigh := None; dayLow := None;
     fiftyTwoWeekHigh := None; fiftyTwoWeekLow := None;
     volume := None; avgVolume3m := None;
     change1dPct := Some (Fin (-4)); changeFrom52wLowPct := None;
     changeFrom52wHighPct := None; fiftyTwoWeekChangePct := None;
     marketCap := None; peRatio := Some (Fin 6); pegRatio := None;
     priceToSales := None; priceToBook := None;
     profitMargin := Some (Fin 0.5); roe := None;
     revenueGrowth := Some (Fin 0.25); epsGrowth := None;
     beta := Some (Fin 1.25) |}.

End Spec64.

(* ================================================================== *)
(** ** Callers of the engine *)

(** The pure parts of the routes that call [computeQuantAnalysis]:
    [src/app/api/analyze-stock/route.ts] (the first of the two versions, the
    one that imports [@/lib/quantModel]) and the recommend-stocks route. *)

Module Callers.
Import JS QuantModel.
Local Open Scope js_scope.

(** [a === b] on numbers. *)
Definition strictEq (a b : number) : bool :=
  match a, b with
  | Fin x, Fin y => Qeq_bool x y
  | PosInf, PosInf | NegInf, NegInf => true
  | _, _ => false
  end.

(** The [allFifty] test of the analyze-stock, refresh-stocks and
    recommend-stocks routes. *)
Definition allFifty (analysis : MarketAnalysis) : bool :=
  strictEq (toneScore analysis) (Fin 50)
  && strictEq (growthScore analysis) (Fin 50)
  && strictEq (profitabilityScore analysis) (Fin 50)
  && strictEq (valuationScore analysis) (Fin 50)
  && strictEq (balanceScore analysis) (Fin 50)
  && strictEq (healthScore analysis) (Fin 50).

(** [FALLBACK_ANALYSIS] of the analyze-stock route. *)
Definition FALLBACK_ANALYSIS : MarketAnalysis :=
  {| rating := HOLD;
     conviction := Fin 40;
     toneScore := Fin 50;
     growthScore := Fin 50;
     profitabilityScore := Fin 50;
     valuationScore := Fin 50;
     balanceScore := Fin 50;
     healthScore := Fin 50;
     summary := "We could not compute a full multi-factor score because key data was missing. Treat this as a neutral placeholder.";
     keyRisks := ["Insufficient or inconsistent data for robust scoring."%string];
     thesis := "Data gaps prevent a clear directional view. Consider supplementing this with manual research." |}.

(** The minimal placeholder the analyze-stock route builds when the fetch
    returns no snapshot. *)
Definition placeholderSnapshot (ticker : string) : MarketSnapshot :=
  {| ticker := ticker; companyName := Some ticker;
     price := None; prevClose := None; dayHigh := None; dayLow := None;
     fiftyTwoWeekHigh := None; fiftyTwoWeekLow := None;
     volume := None; avgVolume3m := None;
     change1dPct := None; changeFrom52wLowPct := None;
     changeFrom52wHighPct := None; fiftyTwoWeekChangePct := None;
     marketCap := None; peRatio := None; pegRatio := None;
     priceToSales := None; priceToBook := None;
     profitMargin := None; roe := None;
     revenueGrowth := None; epsGrowth := None; beta := None |}.

(** Steps 1 and 2 of the analyze-stock route, from the outcome of the fetch
    to the analysis it stores and returns ([final]). *)
Definition finalAnalysis `{Host} (fetched : option MarketSnapshot)
  (ticker : string) : MarketAnalysis :=
  let snapshot :=
    match fetched with
    | Some s => s
    | None => placeholderSnapshot ticker
    end in
  let analysis := computeQuantAnalysis snapshot in
  if allFifty analysis then FALLBACK_ANALYSIS else analysis.

End Callers.

(** The ranking of the recommend-stocks route
    ([src/app/api/search-stocks/route.ts], second file of the listing). *)
Module Recommend.
Import JS.
Local Open Scope js_scope.

Inductive RiskProfile : Type := conservative | balanced | aggressive.

Record StockRecord : Type := {
  id : Z;
  ticker : string;
  company : string;
  toneScore : option number;
  growthScore : option number;
  profitabilityScore : option number;
  valuationScore : option number;
  balanceScore : option number;
  healthScore : option number;
  rating : option string
}.

Definition n (v : option number) : number :=
  match v with
  | Some x => if isFinite x then x else Fin 50
  | None => Fin 50
  end.

Definition scoreForProfile (s : StockRecord) (profile : RiskProfile) : number :=
  let tone := n (toneScore s) in
  let growth := n (growthScore s) in
  let prof := n (profitabilityScore s) in
  let val := n (valuationScore s) in
  let bal := n (balanceScore s) in
  let health := n (healthScore s) in
  match profile with
  | conservative =>
      health * Fin 0.30 + bal * Fin 0.30 + val * Fin 0.20
      + prof * Fin 0.15 + growth * Fin 0.05
  | aggressive =>
      growth * Fin 0.40 + tone * Fin 0.20 + health * Fin 0.15
      + prof * Fin 0.10 + val * Fin 0.10 + bal * Fin 0.05
  | balanced =>
      health * Fin 0.25 + growth * Fin 0.25 + bal * Fin 0.20
      + prof * Fin 0.15 + val * Fin 0.10 + tone * Fin 0.05
  end.

(** A record together with its [profileScore]. *)
Definition Scored : Type := (StockRecord * number)%type.

(** [Array.prototype.sort] with a comparator: the sort is stable, and for a
    comparator that orders its inputs consistently the result is the stable
    ordering, built here by insertion.  [cmp a b > 0] puts [a] after [b]. *)
Fixpoint insertBy {A : Type} (cmp : A -> A -> number) (x : A) (l : list A)
  : list A :=
  match l with
  | [] => [x]
  | y :: rest =>
      if cmp x y >? Fin 0 then y :: insertBy cmp x rest else x :: l
  end.

Definition sortBy {A : Type} (cmp : A -> A -> number) (l : list A) : list A :=
  fold_right (insertBy cmp) [] l.

(** [(a, b) => b.profileScore - a.profileScore] *)
Definition byProfileScoreDesc (a b : Scored) : number := snd b - snd a.

(** Step 4 of the route: the records with a health score, scored for the
    profile, sorted by descending profile score, the first eight kept. *)
Definition scored (stocks : list StockRecord) (profile : RiskProfile)
  : list Scored :=
  let filtered :=
    filter (fun s => match healthScore s with Some _ => true | None => false end)
      stocks in
  firstn 8
    (sortBy byProfileScoreDesc
       (map (fun s => (s, scoreForProfile s profile)) filtered)).

(** The [profileScore] the route reports for a scored record. *)
Definition reportedProfileScore (s : Scored) : number := Math_round (snd s).

End Recommend.

(* ================================================================== *)
(** ** The sibling scoring model ([app/api/analyze-stock/analyst.ts]) *)

(** The earlier quant model, which the second version of the analyze-stock
    route calls.  It reads the earlier shape of [MarketSnapshot] (first
    declaration in [src/lib/fetchYahooRapid.ts]) and returns the same
    [MarketAnalysis] record. *)
Module Analyst.
Import JS.
Local Open Scope js_scope.

Record MarketSnapshot : Type := {
  ticker : string;
  companyName : option string;
  price : option number;
  change1d : option number;
  change1m : option number;
  changeFrom52wLowPct : option number;
  changeFrom52wHighPct : option number;
  marketCap : option number;
  peRatio : option number;
  (* extra fundamentals, all optional *)
  priceToSales : option number;
  priceToBook : option number;
  pegRatio : option number;
  roe : option number;
  netMargin : option number;
  revenueGrowth1y : option number;
  epsGrowth1y : option number;
  debtToEquity : option number;
  dividendYield : option number
}.

Definition FALLBACK_ANALYSIS : MarketAnalysis :=
  {| rating := HOLD;
     conviction := Fin 50;
     toneScore := Fin 50;
     growthScore := Fin 50;
     profitabilityScore := Fin 50;
     valuationScore := Fin 50;
     balanceScore := Fin 50;
     healthScore := Fin 50;
     summary := "We did not have enough reliable market data to generate a high-confidence view. Treat this as a neutral placeholder until fresher data is available.";
     keyRisks := ["Insufficient or inconsistent market data."%string];
     thesis := "With limited data, the model cannot clearly tilt toward bullish or bearish; maintaining a neutral hold stance is prudent." |}.

(* ---------- helpers ---------- *)

Definition clean (v : option number) : option number :=
  match v with
  | Some x => if isFinite x then Some x else None
  | None => None
  end.

Definition clamp01 (v : number) : number :=
  if v <? Fin 0 then Fin 0
  else if v >? Fin 1 then Fin 1
  else v.

(** Map a z-score-ish value in [-3, +3] to [0, 100]. *)
Definition zToScore (z : number) : number :=
  let zClamped := Math_max (Fin (-3)) (Math_min (Fin 3) z) in
  let normalized := (zClamped + Fin 3) / Fin 6 in
  Math_round (normalized * Fin 100).

(** [toScore(value, { min, max, invert })]; an omitted [invert] is [false]. *)
Definition toScore (value : option number) (min max : number) (invert : bool)
  : option number :=
  match value with
  | None => None
  | Some v =>
      if Callers.strictEq max min then None
      else
        let ratio := (v - min) / (max - min) in
        let ratio := clamp01 ratio in
        let ratio := if invert then Fin 1 - ratio else ratio in
        Some (Math_round (ratio * Fin 100))
  end.

(** [parts.length > 0 ? Math.round(sum / parts.length) : 50] *)
Definition averageOr50 (parts : list number) : number :=
  match parts with
  | [] => Fin 50
  | _ => Math_round (QuantModel.sumOf parts / QuantModel.lengthOf parts)
  end.

(** A conditional [push]. *)
Definition pushed (o : option number) : list number :=
  match o with
  | Some x => [x]
  | None => []
  end.

(* ---------- core quant model ---------- *)

Section Model.
Context `{Host}.

(** The scores, from the cleaned fields. *)

Definition toneOf (d1 d30 fromLow fromHigh : option number) : number :=
  let tone1d :=
    match d1 with Some d => Some (zToScore (d / Fin 5)) | None => None end in
  let tone30 :=
    match d30 with Some d => Some (zToScore (d / Fin 30)) | None => None end in
  let rangePart :=
    match fromLow, fromHigh with
    | Some lo, Some hi =>
        let totalRange := lo - hi in
        if negb (Callers.strictEq totalRange (Fin 0)) then
          let pos := lo / totalRange in
          let rangeTone := Math_round (clamp01 pos * Fin 100) in
          [rangeTone]
        else []
    | _, _ => []
    end in
  averageOr50 (pushed tone1d ++ pushed tone30 ++ rangePart).

Definition growthOf (d30 mcap : option number) : number :=
  let growth30 := toScore d30 (Fin (-30)) (Fin 60) false in
  let sizePart :=
    match mcap with
    | Some _ =>
        let growthSize :=
          toScore mcap (Fin 5000000000) (Fin 1000000000000) true in
        pushed growthSize
    | None => []
    end in
  averageOr50 (pushed growth30 ++ sizePart).

Definition profitabilityOf (d30 mcap : option number) : number :=
  let sizePart :=
    match mcap with
    | Some _ =>
        pushed (toScore mcap (Fin 2000000000) (Fin 1500000000000) false)
    | None => []
    end in
  let momPart :=
    match d30 with
    | Some _ => pushed (toScore d30 (Fin (-20)) (Fin 40) false)
    | None => []
    end in
  averageOr50 (sizePart ++ momPart).

Definition valuationOf (pe : option number) : number :=
  match pe with
  | Some p =>
      let cheapScore := toScore pe (Fin 5) (Fin 60) true in
      let valuationScore :=
        match cheapScore with Some c => c | None => Fin 50 end in
      if p >? Fin 80 then Math_max (Fin 0) (valuationScore - Fin 15)
      else valuationScore
  | None => Fin 50
  end.

Definition balanceOf (fromLow fromHigh : option number)
  (valuationScore : number) : number :=
  let midPart :=
    match fromLow, fromHigh with
    | Some lo, Some hi =>
        let span := lo - hi in
        if negb (Callers.strictEq span (Fin 0)) then
          let pos := lo / span in
          let mid := Math_abs (pos - Fin 0.5) in
          let balanceMid :=
            Math_round ((Fin 1 - clamp01 (mid * Fin 2)) * Fin 100) in
          [balanceMid]
        else []
    | _, _ => []
    end in
  averageOr50 (midPart ++ [valuationScore]).

Definition healthOf (toneScore growthScore profitabilityScore valuationScore
                     balanceScore : number) : number :=
  let health :=
    (toneScore * Fin 0.15 + growthScore * Fin 0.25
     + profitabilityScore * Fin 0.25 + valuationScore * Fin 0.15
     + balanceScore * Fin 0.2) / Fin 1 in
  Math_round health.

(** Rating and conviction rules. *)
Definition ratingAndConviction
  (healthScore balanceScore growthScore valuationScore : number)
  : Rating * number :=
  if (healthScore >=? Fin 70) && (balanceScore >=? Fin 65)
     && (growthScore >=? Fin 65) && (valuationScore >=? Fin 50)
  then (BUY, Math_round ((healthScore + growthScore + balanceScore) / Fin 3))
  else if (healthScore <=? Fin 40) || (balanceScore <=? Fin 40)
          || (valuationScore <=? Fin 35)
  then (SELL,
        Math_round ((Fin 100 - healthScore + (Fin 100 - balanceScore)) / Fin 2))
  else (HOLD,
        Math_round ((Fin 60 + Math_abs (healthScore - Fin 50)) / Fin 1.2)).

Definition keyRisksOf (toneScore valuationScore growthScore : number)
  : list string :=
  let k0 : list string := [] in
  let k1 :=
    if toneScore <? Fin 45
    then k0 ++ ["Recent price action and short-term sentiment have been weak."%string]
    else k0 in
  let k2 :=
    if valuationScore <? Fin 45
    then k1 ++ ["Valuation appears elevated relative to typical earnings multiples."%string]
    else k1 in
  let k3 :=
    if growthScore <? Fin 45
    then k2 ++ ["Forward growth signals are mixed or below market leaders."%string]
    else k2 in
  if (List.length k3 =? 0)%nat
  then k3 ++ ["Standard market, macro, and company-specific risks apply."%string]
  else k3.

Definition thesisOf (name : string) (r : Rating) : string :=
  match r with
  | BUY => name ++ " screens well on overall health, with a solid mix of growth, profitability, and a risk profile that looks acceptable for new capital. For investors comfortable with the volatility and sector exposure, the risk/reward skew is favourable."
  | SELL => name ++ " currently scores poorly on either health, valuation, or balance, suggesting limited upside versus the risks. Investors with better alternatives may want to reduce or exit exposure unless they have a differentiated thesis."
  | HOLD => name ++ " sits in a middle ground where the upside case is not strong enough to warrant an aggressive add, but the downside case is not severe enough for an outright exit. Maintaining a HOLD stance and monitoring future quarters is reasonable."
  end%string.

Definition computeQuantAnalysis (snapshot : option MarketSnapshot)
  : MarketAnalysis :=
  match snapshot with
  | None => FALLBACK_ANALYSIS
  | Some snapshot =>
      let d1 := clean (change1d snapshot) in
      let d30 := clean (change1m snapshot) in
      let fromLow := clean (changeFrom52wLowPct snapshot) in
      let fromHigh := clean (changeFrom52wHighPct snapshot) in
      let mcap := clean (marketCap snapshot) in
      let pe := clean (peRatio snapshot) in
      let toneScore := toneOf d1 d30 fromLow fromHigh in
      let growthScore := growthOf d30 mcap in
      let profitabilityScore := profitabilityOf d30 mcap in
      let valuationScore := valuationOf pe in
      let balanceScore := balanceOf fromLow fromHigh valuationScore in
      let healthScore :=
        healthOf toneScore growthScore profitabilityScore valuationScore
          balanceScore in
      let rc :=
        ratingAndConviction healthScore balanceScore growthScore
          valuationScore in
      let rating := fst rc in
      let conviction := snd rc in
      let name :=
        match companyName snapshot with
        | Some n => n
        | None => ticker snapshot
        end in
      let summary :=
        (name ++ " currently trades with a blended health score of "
         ++ toString healthScore ++ " and a risk/reward balance of "
         ++ toString balanceScore
         ++ ". Growth and profitability are scored at "
         ++ toString growthScore ++ " and " ++ toString profitabilityScore
         ++ ", with a valuation score of " ++ toString valuationScore
         ++ ". This profile leads to a " ++ Rating_toString rating
         ++ " rating with conviction around " ++ toString conviction
         ++ " on a 0–100 scale.")%string in
      {| rating := rating;
         conviction := conviction;
         toneScore := toneScore;
         growthScore := growthScore;
         profitabilityScore := profitabilityScore;
         valuationScore := valuationScore;
         balanceScore := balanceScore;
         healthScore := healthScore;
         summary := summary;
         keyRisks := keyRisksOf toneScore valuationScore growthScore;
         thesis := thesisOf name rating |}
  end.

End Model.

End Analyst.

(* ================================================================== *)
(** ** Enrichment of a snapshot ([src/lib/fetchYahooRapid.ts]) *)

(** The merge at the end of [enrichWithFmp].  Fetching and parsing are left
    out: [fmp] is [None] on every path that returns [base] unchanged (no API
    key, HTTP error, unparsable or unexpected body, network error) and
    otherwise holds the four figures read from the FMP row with [toNumber]. *)
Module Fetch.
Import JS.

Record FmpRatios : Type := {
  profitMarginTTM : option number;
  roeTTM : option number;
  revenueGrowthTTM : option number;
  epsGrowthTTM : option number
}.

(** [base.x != null ? base.x : other] *)
Definition orElse (x other : option number) : option number :=
  match x with
  | Some _ => x
  | None => other
  end.

Definition enrichWithFmp (fmp : option FmpRatios) (base : MarketSnapshot)
  : MarketSnapshot :=
  match fmp with
  | None => base
  | Some row =>
      {| ticker := ticker base; companyName := companyName base;
         price := price base; prevClose := prevClose base;
         dayHigh := dayHigh base; dayLow := dayLow base;
         fiftyTwoWeekHigh := fiftyTwoWeekHigh base;
         fiftyTwoWeekLow := fiftyTwoWeekLow base;
         volume := volume base; avgVolume3m := avgVolume3m base;
         change1dPct := change1dPct base;
         changeFrom52wLowPct := changeFrom52wLowPct base;
         changeFrom52wHighPct := changeFrom52wHighPct base;
         fiftyTwoWeekChangePct := fiftyTwoWeekChangePct base;
         marketCap := marketCap base; peRatio := peRatio base;
         pegRatio := pegRatio base;
         priceToSales := priceToSales base; priceToBook := priceToBook base;
         profitMargin := orElse (profitMargin base) (profitMarginTTM row);
         roe := orElse (roe base) (roeTTM row);
         revenueGrowth := orElse (revenueGrowth base) (revenueGrowthTTM row);
         epsGrowth := orElse (epsGrowth base) (epsGrowthTTM row);
         beta := beta base |}
  end.

End Fetch.

(** Orders used to state monotonicity. *)
Module Order.
Import JS.

(** Two nullable numbers are both absent, or both finite and in order. *)
Definition entryLe (a b : option number) : Prop :=
  match a, b with
  | None, None => True
  | Some (Fin x), Some (Fin y) => (x <= y)%Q
  | _, _ => False
  end.

(** Two score entries are equal and dropped by the averages (null or
    [NaN]), or both finite and in order. *)
Inductive scoreLe : option number -> option number -> Prop :=
| scoreLe_null : scoreLe None None
| scoreLe_nan : scoreLe (Some NaN) (Some NaN)
| scoreLe_fin (x y : Q) : (x <= y)%Q -> scoreLe (Some (Fin x)) (Some (Fin y)).

(** [s2] carries the data of [s1], except that its profit margin, return on
    equity, revenue and EPS growth, 1-day change and 52-week change, where
    [s1] has them, are finite and at least as high. *)
Definition atLeastAsStrong (s1 s2 : MarketSnapshot) : Prop :=
  entryLe (profitMargin s1) (profitMargin s2)
  /\ entryLe (roe s1) (roe s2)
  /\ entryLe (revenueGrowth s1) (revenueGrowth s2)
  /\ entryLe (epsGrowth s1) (epsGrowth s2)
  /\ entryLe (change1dPct s1) (change1dPct s2)
  /\ entryLe (fiftyTwoWeekChangePct s1) (fiftyTwoWeekChangePct s2)
  /\ changeFrom52wHighPct s1 = changeFrom52wHighPct s2
  /\ price s1 = price s2
  /\ fiftyTwoWeekLow s1 = fiftyTwoWeekLow s2
  /\ fiftyTwoWeekHigh s1 = fiftyTwoWeekHigh s2
  /\ peRatio s1 = peRatio s2 /\ priceToSales s1 = priceToSales s2
  /\ priceToBook s1 = priceToBook s2 /\ pegRatio s1 = pegRatio s2
  /\ beta s1 = beta s2 /\ marketCap s1 = marketCap s2.

(** A stored score is missing, not finite (both read as 50 by [n]), or a
    finite number between [lo] and [hi]. *)
Definition storedWithin (lo hi : Q) (o : option number) : Prop :=
  match o with
  | Some (Fin x) => (lo <= x <= hi)%Q
  | _ => True
  end.

(** All six stored scores of a record satisfy [storedWithin lo hi]. *)
Definition recordWithin (lo hi : Q) (s : Recommend.StockRecord) : Prop :=
  storedWithin lo hi (Recommend.toneScore s)
  /\ storedWithin lo hi (Recommend.growthScore s)
  /\ storedWithin lo hi (Recommend.profitabilityScore s)
  /\ storedWithin lo hi (Recommend.valuationScore s)
  /\ storedWithin lo hi (Recommend.balanceScore s)
  /\ storedWithin lo hi (Recommend.healthScore s).

(** [clamp01] on a finite value. *)
Definition clamp01Q (x : Q) : Q :=
  if Qle_bool 0 x then (if Qle_bool x 1 then x else 1) else 0.

(** A nullable score that, when present, is a finite number in [[0, 100]]. *)
Definition percentOrNull (o : option number) : Prop :=
  match o with
  | Some (Fin x) => (0 <= x <= 100)%Q
  | Some _ => False
  | None => True
  end.

(** [a] is ranked no lower than [b]: its profile score is at least [b]'s. *)
Definition rankedBefore (a b : Recommend.Scored) : Prop :=
  JS.leb (snd b) (snd a) = true.

End Order.

(** Further sample inputs. *)
Module Samples.
Import JS.

(** The blank snapshot with the three momentum inputs. *)
Definition withMomentum (day year dist : option number) : MarketSnapshot :=
  {| ticker := "ACME"; companyName := None;
     price := None; prevClose := None; dayHigh := None; dayLow := None;
     fiftyTwoWeekHigh := None; fiftyTwoWeekLow := None;
     volume := None; avgVolume3m := None;
     change1dPct := day; changeFrom52wLowPct := None;
     changeFrom52wHighPct := dist; fiftyTwoWeekChangePct := year;
     marketCap := None; peRatio := None; pegRatio := None;
     priceToSales := None; priceToBook := None;
     profitMargin := None; roe := None;
     revenueGrowth := None; epsGrowth := None; beta := None |}.

(** The blank snapshot with the two risk inputs. *)
Definition withRisk (b cap : option number) : MarketSnapshot :=
  {| ticker := "ACME"; companyName := None;
     price := None; prevClose := None; dayHigh := None; dayLow := None;
     fiftyTwoWeekHigh := None; fiftyTwoWeekLow := None;
     volume := None; avgVolume3m := None;
     change1dPct := None; changeFrom52wLowPct := None;
     changeFrom52wHighPct := None; fiftyTwoWeekChangePct := None;
     marketCap := cap; peRatio := None; pegRatio := None;
     priceToSales := None; priceToBook := None;
     profitMargin := None; roe := None;
     revenueGrowth := None; epsGrowth := None; beta := b |}.

(** A company whose only known figures are its margin, its return on equity,
    its growth rates and its 1-day and 52-week moves. *)
Definition withFundamentals (margin equity rev eps day year : Q)
  : MarketSnapshot :=
  {| ticker := "ACME"; companyName := None;
     price := None; prevClose := None; dayHigh := None; dayLow := None;
     fiftyTwoWeekHigh := None; fiftyTwoWeekLow := None;
     volume := None; avgVolume3m := None;
     change1dPct := Some (Fin day); changeFrom52wLowPct := None;
     changeFrom52wHighPct := None; fiftyTwoWeekChangePct := Some (Fin year);
     marketCap := None; peRatio := None; pegRatio := None;
     priceToSales := None; priceToBook := None;
     profitMargin := Some (Fin margin); roe := Some (Fin equity);
     revenueGrowth := Some (Fin rev); epsGrowth := Some (Fin eps);
     beta := None |}.

(** A stored stock with the six scores given. *)
Definition stock (i : Z) (t : string)
  (tone growth prof val bal health : option number) : Recommend.StockRecord :=
  {| Recommend.id := i; Recommend.ticker := t; Recommend.company := t;
     Recommend.toneScore := tone; Recommend.growthScore := growth;
     Recommend.profitabilityScore := prof; Recommend.valuationScore := val;
     Recommend.balanceScore := bal; Recommend.healthScore := health;
     Recommend.rating := None |}.

(** A snapshot of the earlier shape with the six inputs the sibling model
    reads. *)
Definition analystSnapshot (d1 d30 fromLow fromHigh mcap pe : option number)
  : Analyst.MarketSnapshot :=
  {| Analyst.ticker := "ACME"; Analyst.companyName := None;
     Analyst.price := None;
     Analyst.change1d := d1; Analyst.change1m := d30;
     Analyst.changeFrom52wLowPct := fromLow;
     Analyst.changeFrom52wHighPct := fromHigh;
     Analyst.marketCap := mcap; Analyst.peRatio := pe;
     Analyst.priceToSales := None; Analyst.priceToBook := None;
     Analyst.pegRatio := None; Analyst.roe := None;
     Analyst.netMargin := None; Analyst.revenueGrowth1y := None;
     Analyst.epsGrowth1y := None; Analyst.debtToEquity := None;
     Analyst.dividendYield := None |}.

End Samples.

(* ================================================================== *)
(** ** Comparisons and rounding *)

Import JS QuantModel Spec.
Local Open Scope js_scope.

Lemma leb_Fin (x y : Q) : (Fin x <=? Fin y) = Qle_bool x y.
Proof. reflexivity. Qed.

Lemma leb_Fin_true (x y : Q) : (Fin x <=? Fin y) = true <-> (x <= y)%Q.
Proof. simpl. apply Qle_bool_iff. Qed.

Lemma Qle_bool_false (x y : Q) : Qle_bool x y = false <-> (y < x)%Q.
Proof.
  split; intro Hxy.
  - apply Qnot_le_lt. intro Hle. apply Qle_bool_iff in Hle. congruence.
  - destruct (Qle_bool x y) eqn:E; [|reflexivity].
    apply Qle_bool_iff in E. lra.
Qed.

Lemma ltb_Fin_true (x y : Q) : (Fin x <? Fin y) = true <-> (x < y)%Q.
Proof.
  simpl. rewrite negb_true_iff. apply Qle_bool_false.
Qed.

Lemma Qeq_bool_false (x y : Q) : Qeq_bool x y = false <-> ~ (x == y)%Q.
Proof.
  split.
  - intros E Heq. apply Qeq_bool_iff in Heq. congruence.
  - intro Hne. destruct (Qeq_bool x y) eqn:E; [|reflexivity]. apply Qeq_bool_iff in E. contradiction.
Qed.

(** Case split on every rational test in the goal, keeping the outcome as an
    order fact. *)
Ltac qcases :=
  repeat match goal with
  | |- context [Qle_bool ?a ?b] =>
      let E := fresh "E" in
      destruct (Qle_bool a b) eqn:E;
      [apply Qle_bool_iff in E | apply Qle_bool_false in E]
  | |- context [Qeq_bool ?a ?b] =>
      let E := fresh "E" in
      destruct (Qeq_bool a b) eqn:E;
      [apply Qeq_bool_iff in E | apply Qeq_bool_false in E]
  end.

Lemma Math_round_Fin (x : Q) : Math_round (Fin x) = Fin (roundQ x).
Proof. reflexivity. Qed.

Lemma roundQ_comp (x y : Q) : (x == y)%Q -> roundQ x = roundQ y.
Proof.
  intro Hxy. unfold roundQ. f_equal. apply Qfloor_comp. rewrite Hxy. reflexivity.
Qed.

Lemma roundQ_mono (x y : Q) : (x <= y)%Q -> (roundQ x <= roundQ y)%Q.
Proof.
  intro Hxy. unfold roundQ. rewrite <- Zle_Qle.
  apply Qfloor_resp_le. lra.
Qed.

Lemma roundQ_Z (z : Z) : roundQ (inject_Z z) = inject_Z z.
Proof.
  unfold roundQ. f_equal.
  pose proof (Qfloor_le (inject_Z z + (1 # 2))) as Hlo.
  pose proof (Qlt_floor (inject_Z z + (1 # 2))) as Hhi.
  set (f := Qfloor (inject_Z z + (1 # 2))) in *.
  assert (Hl : (inject_Z f < inject_Z (z + 1))%Q).
  { rewrite inject_Z_plus. change (inject_Z 1) with 1%Q. lra. }
  assert (Hu : (inject_Z z < inject_Z (f + 1))%Q) by lra.
  rewrite <- Zlt_Qlt in Hl, Hu. lia.
Qed.

Lemma roundQ_lower (z : Z) (x : Q) :
  (inject_Z z <= x)%Q -> (inject_Z z <= roundQ x)%Q.
Proof. intro Hx. rewrite <- (roundQ_Z z). now apply roundQ_mono. Qed.

Lemma roundQ_upper (z : Z) (x : Q) :
  (x <= inject_Z z)%Q -> (roundQ x <= inject_Z z)%Q.
Proof. intro Hx. rewrite <- (roundQ_Z z). now apply roundQ_mono. Qed.

(** Rounding keeps a value between two integers. *)
Lemma roundQ_between (lo hi : Z) (x : Q) :
  (inject_Z lo <= x <= inject_Z hi)%Q ->
  (inject_Z lo <= roundQ x <= inject_Z hi)%Q.
Proof.
  intros [Hl Hh]. split; [now apply roundQ_lower | now apply roundQ_upper].
Qed.

(* ================================================================== *)
(** ** The band mapper *)

(** Position of a value inside a band. *)
Lemma band_fraction (mn mx v : Q) :
  (mn < mx)%Q -> (mn <= v <= mx)%Q ->
  (0 <= (v - mn) / (mx - mn) <= 1)%Q.
Proof.
  intros Hband [Hlo Hhi]. split.
  - apply Qle_shift_div_l; lra.
  - apply Qle_shift_div_r; lra.
Qed.

Lemma band_fraction_mono (mn mx v1 v2 : Q) :
  (mn < mx)%Q -> (v1 <= v2)%Q ->
  ((v1 - mn) / (mx - mn) <= (v2 - mn) / (mx - mn))%Q.
Proof.
  intros Hband Hv. unfold Qdiv.
  apply Qmult_le_compat_r; [lra|].
  apply Qlt_le_weak, Qinv_lt_0_compat. lra.
Qed.

(** On finite arguments the band is the specification's [bandQ]. *)
Lemma scoreFromBand_Fin (mn mx v : Q) :
  (mn < mx)%Q ->
  exists q, scoreFromBand (Some (Fin v)) (Fin mn) (Fin mx) = Fin q
            /\ (q == bandQ mn mx v)%Q.
Proof.
  intro Hband. unfold scoreFromBand, bandQ, geb. simpl.
  destruct (Qle_bool v mn) eqn:E1.
  - eexists; split; [reflexivity|reflexivity].
  - destruct (Qle_bool mx v) eqn:E2.
    + eexists; split; [reflexivity|reflexivity].
    + destruct (Qeq_bool (mx + - mn) 0) eqn:E3.
      * apply Qeq_bool_iff in E3. lra.
      * eexists; split; [reflexivity|].
        apply Qeq_bool_false in E3.
        assert (Hd : ~ (mx - mn == 0)%Q) by lra.
        field. exact Hd.
Qed.

Lemma bandQ_bounds (mn mx v : Q) :
  (mn < mx)%Q -> (10 <= bandQ mn mx v <= 95)%Q.
Proof.
  intro Hband. unfold bandQ. qcases; try lra.
  destruct (band_fraction mn mx v Hband) as [Ht0 Ht1]; [lra|].
  lra.
Qed.

Lemma bandQ_mono (mn mx v1 v2 : Q) :
  (mn < mx)%Q -> (v1 <= v2)%Q -> (bandQ mn mx v1 <= bandQ mn mx v2)%Q.
Proof.
  intros Hband Hv.
  pose proof (bandQ_bounds mn mx v1 Hband) as B1.
  pose proof (bandQ_bounds mn mx v2 Hband) as B2.
  unfold bandQ in *. qcases; try lra.
  pose proof (band_fraction_mono mn mx v1 v2 Hband Hv). lra.
Qed.

Lemma scoreFromBandOrNull_Some (v mn mx : number) :
  scoreFromBandOrNull (Some v) mn mx = Some (scoreFromBand (Some v) mn mx).
Proof.
  unfold scoreFromBandOrNull, scoreFromBand.
  destruct (v <=? mn); [reflexivity|]. destruct (v >=? mx); reflexivity.
Qed.



(* ================================================================== *)
(** ** The P/E curve *)

Lemma scoreFromPe_Fin (pe : Q) :
  scoreFromPeOrNull (Some (Fin pe)) = Some (Fin (peCurve pe)).
Proof.
  unfold scoreFromPeOrNull, peCurve, geb, gtb. simpl.
  destruct (Qle_bool pe 0); [reflexivity|].
  destruct (Qle_bool 5 pe && Qle_bool pe 15); [reflexivity|].
  destruct (negb (Qle_bool pe 15) && Qle_bool pe 30); [reflexivity|].
  destruct (negb (Qle_bool pe 30) && Qle_bool pe 60); reflexivity.
Qed.

Lemma scoreFromPe_nonfinite (x : number) :
  isFinite x = false -> scoreFromPeOrNull (Some x) = None.
Proof.
  destruct x; simpl; intro E; try reflexivity. discriminate.
Qed.

(** Division by a literal, turned into a multiplication for [lra]. *)
Ltac const_div :=
  unfold Qdiv in *;
  repeat match goal with
  | |- context [Qinv (Qmake ?n ?d)] =>
      let v := eval vm_compute in (Qinv (Qmake n d)) in
      change (Qinv (Qmake n d)) with v
  | H : context [Qinv (Qmake ?n ?d)] |- _ =>
      let v := eval vm_compute in (Qinv (Qmake n d)) in
      change (Qinv (Qmake n d)) with v in H
  end.

(** Close a goal comparing rounded values, or a rounded value and an integer
    constant. *)
Ltac round_order :=
  match goal with
  | |- (roundQ _ <= roundQ _)%Q => apply roundQ_mono; const_div; lra
  | |- (roundQ _ <= ?c)%Q =>
      let z := eval vm_compute in (Qfloor c) in
      change c with (inject_Z z); apply roundQ_upper;
      change (inject_Z z) with c; const_div; lra
  | |- (?c <= roundQ _)%Q =>
      let z := eval vm_compute in (Qfloor c) in
      change c with (inject_Z z); apply roundQ_lower;
      change (inject_Z z) with c; const_div; lra
  | |- _ => lra
  end.

Lemma peCurve_mono (p1 p2 : Q) :
  (5 <= p1)%Q -> (p1 <= p2)%Q -> (peCurve p2 <= peCurve p1)%Q.
Proof.
  intros H5 H12. unfold peCurve. qcases; simpl; try lra; round_order.
Qed.

Lemma peCurve_at (pe c : Q) (z : Z) :
  (pe == c)%Q -> peCurve c = inject_Z z -> peCurve pe = inject_Z z.
Proof.
  intros Hpe <-. unfold peCurve.
  rewrite !(Qleb_comp pe c Hpe _ _ (Qeq_refl _)).
  rewrite !(Qleb_comp _ _ (Qeq_refl _) pe c Hpe).
  repeat match goal with
  | |- context [if ?b then _ else _] => destruct b; [try reflexivity|]
  end; try reflexivity; apply roundQ_comp; rewrite Hpe; reflexivity.
Qed.



(** C10. For every present (finite) ratio strictly between 0 and 5 the P/E
    score is 35, the value of the [pe > 60] branch, while it is 95 at
    [pe = 5]; so over (0, 60] the score is not monotonic non-increasing. *)
Theorem scoreFromPe_below_five :
  (forall pe : Q, (0 < pe)%Q -> (pe < 5)%Q ->
     scoreFromPeOrNull (Some (Fin pe)) = Some (Fin 35))
  /\ scoreFromPeOrNull (Some (Fin 5)) = Some (Fin 95)
  /\ scoreFromPeOrNull (Some (Fin 61)) = Some (Fin 35)
  /\ ~ (forall p1 p2 s1 s2 : Q,
        (0 < p1)%Q -> (p1 <= p2)%Q -> (p2 <= 60)%Q ->
        scoreFromPeOrNull (Some (Fin p1)) = Some (Fin s1) ->
        scoreFromPeOrNull (Some (Fin p2)) = Some (Fin s2) ->
        (s2 <= s1)%Q).
Proof.
  repeat apply conj; try reflexivity.
  - intros pe H0 H5. rewrite scoreFromPe_Fin. unfold peCurve.
    qcases; simpl; try reflexivity; lra.
  - intro Hmono.
    assert (Hbad : (95 <= 35)%Q).
    { apply (Hmono 4 5 35 95)%Q; try reflexivity; discriminate. }
    apply Qle_bool_iff in Hbad. discriminate.
Qed.

Lemma scoreFromPe_below_five_witness :
  scoreFromPeOrNull (Some (Fin 4.5)) = Some (Fin 35).
Proof.
  destruct scoreFromPe_below_five as (Hlow & _).
  apply Hlow; reflexivity.
Defined.

(* ================================================================== *)
(** ** Averages stay inside the range of their entries *)

Lemma within_Fin (lo hi : Q) (x : number) :
  within lo hi x -> exists q, x = Fin q /\ (lo <= q <= hi)%Q.
Proof.
  destruct x; simpl; try contradiction. intro Hq. eauto.
Qed.

Lemma within_weaken (lo hi lo' hi' : Q) (x : number) :
  (lo' <= lo)%Q -> (hi <= hi')%Q -> within lo hi x -> within lo' hi' x.
Proof.
  destruct x; simpl; try contradiction. intros; lra.
Qed.

Lemma numericScores_within (lo hi : Q) (scores : list (option number)) :
  Forall (entryWithin lo hi) scores ->
  Forall (within lo hi) (numericScores scores).
Proof.
  induction 1 as [|o rest Ho _ IH]; simpl; [constructor|].
  destruct o as [[| | |q]|]; simpl in *; auto; contradiction.
Qed.

Lemma sumOf_within (lo hi : Q) (vals : list number) :
  Forall (within lo hi) vals ->
  forall a : Q, exists s : Q,
    fold_left add vals (Fin a) = Fin s
    /\ (a + inject_Z (Z.of_nat (List.length vals)) * lo <= s)%Q
    /\ (s <= a + inject_Z (Z.of_nat (List.length vals)) * hi)%Q.
Proof.
  induction 1 as [|x rest Hx _ IH]; intro a.
  - exists a. change (inject_Z (Z.of_nat (List.length (@nil number)))) with 0%Q.
    repeat split; lra.
  - apply within_Fin in Hx. destruct Hx as (q & -> & Hq).
    destruct (IH (a + q)%Q) as (s & Hs & Hlo & Hhi).
    exists s. split; [exact Hs|].
    change (List.length (Fin q :: rest)) with (S (List.length rest)).
    rewrite Nat2Z.inj_succ. unfold Z.succ. rewrite inject_Z_plus.
    change (inject_Z 1) with 1%Q.
    set (n := inject_Z (Z.of_nat (List.length rest))) in *.
    split; lra.
Qed.

(** The rounded mean of a non-empty list of scores between two integers lies
    between them. *)
Lemma mean_within (lo hi : Z) (x : number) (rest : list number) :
  Forall (within (inject_Z lo) (inject_Z hi)) (x :: rest) ->
  within (inject_Z lo) (inject_Z hi)
    (Math_round (sumOf (x :: rest) / lengthOf (x :: rest))).
Proof.
  intro Hall. unfold sumOf, lengthOf.
  destruct (sumOf_within _ _ _ Hall 0%Q) as (s & -> & Hlo & Hhi).
  set (n := inject_Z (Z.of_nat (List.length (x :: rest)))) in *.
  assert (Hn : (0 < n)%Q).
  { unfold n. change 0%Q with (inject_Z 0). rewrite <- Zlt_Qlt.
    simpl List.length. lia. }
  simpl JS.div.
  destruct (Qeq_bool n 0) eqn:En.
  { apply Qeq_bool_iff in En. lra. }
  rewrite Math_round_Fin. simpl. apply roundQ_between. split.
  - apply Qle_shift_div_l; [exact Hn|lra].
  - apply Qle_shift_div_r; [exact Hn|lra].
Qed.

Lemma avgScores_within (lo hi : Z) (scores : list (option number)) :
  (lo <= 50 <= hi)%Z ->
  Forall (entryWithin (inject_Z lo) (inject_Z hi)) scores ->
  within (inject_Z lo) (inject_Z hi) (avgScores scores).
Proof.
  intros H50 Hall. apply numericScores_within in Hall. unfold avgScores.
  destruct (numericScores scores) as [|x rest].
  - simpl. change 50%Q with (inject_Z 50). rewrite <- !Zle_Qle. lia.
  - now apply mean_within.
Qed.

Lemma avgScoresOrNull_within (lo hi : Z) (scores : list (option number)) :
  Forall (entryWithin (inject_Z lo) (inject_Z hi)) scores ->
  entryWithin (inject_Z lo) (inject_Z hi) (avgScoresOrNull scores).
Proof.
  intro Hall. apply numericScores_within in Hall. unfold avgScoresOrNull.
  destruct (numericScores scores) as [|x rest]; [exact I|].
  pose proof (mean_within lo hi x rest Hall) as Hm.
  destruct (Math_round _); simpl in *; auto.
Qed.

(** Every entry a band produces is null, [NaN], or between 10 and 95,
    whatever the value is. *)
Lemma scoreFromBandOrNull_entry (v : option number) (mn mx : Q) :
  (mn < mx)%Q -> entryWithin 10 95 (scoreFromBandOrNull v (Fin mn) (Fin mx)).
Proof.
  intro Hband. destruct v as [[| | |v]|]; try exact I.
  - simpl. split; discriminate.
  - simpl. split; discriminate.
  - rewrite scoreFromBandOrNull_Some.
    destruct (scoreFromBand_Fin mn mx v Hband) as (q & -> & Hq).
    pose proof (bandQ_bounds mn mx v Hband). simpl. lra.
Qed.

Lemma peCurve_bounds (pe : Q) : (20 <= peCurve pe <= 95)%Q.
Proof.
  unfold peCurve. qcases; simpl; split; round_order.
Qed.

Lemma scoreFromPeOrNull_entry (pe : option number) :
  entryWithin 10 95 (scoreFromPeOrNull pe).
Proof.
  destruct pe as [[| | |pe]|]; try exact I.
  rewrite scoreFromPe_Fin. pose proof (peCurve_bounds pe). simpl. lra.
Qed.

(* ================================================================== *)
(** ** Factor scores and composites *)

Lemma avgScores_10_95 (scores : list (option number)) :
  Forall (entryWithin 10 95) scores -> within 10 95 (avgScores scores).
Proof.
  intro Hall. apply (avgScores_within 10 95); [lia|exact Hall].
Qed.

Lemma avgScoresOrNull_10_95 (scores : list (option number)) :
  Forall (entryWithin 10 95) scores ->
  entryWithin 10 95 (avgScoresOrNull scores).
Proof. apply (avgScoresOrNull_within 10 95). Qed.

Create HintDb scores.
#[local] Hint Resolve scoreFromBandOrNull_entry scoreFromPeOrNull_entry
  avgScoresOrNull_10_95 : scores.
#[local] Hint Extern 1 (_ < _)%Q => reflexivity : scores.
#[local] Hint Constructors Forall : scores.

Section EngineFacts.
Context `{Host}.

Lemma scoreValue_within s : within 10 95 (scoreValue s).
Proof. apply avgScores_10_95. auto 10 with scores. Qed.

Lemma priceGrowthScore_entry s : entryWithin 10 95 (priceGrowthScore s).
Proof.
  unfold priceGrowthScore.
  destruct (fiftyTwoWeekChangePct s); [auto with scores|].
  destruct (price s), (fiftyTwoWeekLow s), (fiftyTwoWeekHigh s); try exact I.
  destruct (_ >? _); [auto with scores|exact I].
Qed.

Lemma scoreGrowth_within s : within 10 95 (scoreGrowth s).
Proof.
  unfold scoreGrowth.
  pose proof (priceGrowthScore_entry s) as Hp.
  assert (Hf : entryWithin 10 95
                 (avgScoresOrNull
                    [scoreFromBandOrNull (revenueGrowth s) (Fin 0) (Fin 0.35);
                     scoreFromBandOrNull (epsGrowth s) (Fin 0) (Fin 0.45)]))
    by auto 10 with scores.
  destruct (avgScoresOrNull _) as [f|];
    apply avgScores_10_95; auto with scores.
Qed.

Lemma scoreQuality_within s : within 10 95 (scoreQuality s).
Proof. apply avgScores_10_95. auto 10 with scores. Qed.

Lemma scoreMomentum_within s : within 10 95 (scoreMomentum s).
Proof. apply avgScores_10_95. auto 10 with scores. Qed.

Lemma scoreRisk_within s : within 10 95 (scoreRisk s).
Proof.
  apply avgScores_10_95. repeat constructor; [auto with scores|].
  destruct (marketCap s) as [cap|]; [|exact I].
  destruct (truthy cap && (cap >? Fin 0)); [auto with scores|exact I].
Qed.

End EngineFacts.

(** On finite factor scores the composites are the specification's blends. *)
Lemma balanceOf_Fin (v q g r m : Q) :
  balanceOf (Fin v) (Fin q) (Fin g) (Fin r) (Fin m)
  = Fin (balanceSpec v q g r m).
Proof.
  unfold balanceOf, balanceSpec. cbn [JS.mul JS.add].
  rewrite Math_round_Fin. f_equal. apply roundQ_comp. ring.
Qed.

Lemma healthOf_Fin (v q g m r : Q) :
  healthOf (Fin v) (Fin q) (Fin g) (Fin m) (Fin r)
  = Fin (healthSpec v q g m r).
Proof.
  unfold healthOf, healthSpec. cbn [JS.mul JS.add].
  rewrite Math_round_Fin. f_equal. apply roundQ_comp. ring.
Qed.

Lemma balanceSpec_bounds (v q g r m : Q) :
  (10 <= v <= 95)%Q -> (10 <= q <= 95)%Q -> (10 <= g <= 95)%Q ->
  (10 <= r <= 95)%Q -> (10 <= m <= 95)%Q ->
  (10 <= balanceSpec v q g r m <= 95)%Q.
Proof.
  intros. unfold balanceSpec. apply (roundQ_between 10 95).
  change (inject_Z 10) with 10%Q. change (inject_Z 95) with 95%Q. lra.
Qed.

Lemma healthSpec_bounds (v q g m r : Q) :
  (10 <= v <= 95)%Q -> (10 <= q <= 95)%Q -> (10 <= g <= 95)%Q ->
  (10 <= m <= 95)%Q -> (10 <= r <= 95)%Q ->
  (10 <= healthSpec v q g m r <= 95)%Q.
Proof.
  intros. unfold healthSpec. apply (roundQ_between 10 95).
  change (inject_Z 10) with 10%Q. change (inject_Z 95) with 95%Q. lra.
Qed.

Lemma clamp_Fin (v lo hi : Q) :
  clamp (Fin v) (Fin lo) (Fin hi)
  = Fin (let m := if Qle_bool lo v then v else lo in
         if Qle_bool hi m then hi else m).
Proof.
  unfold clamp, Math_max. cbn [leb].
  destruct (Qle_bool lo v); unfold Math_min; cbn [leb];
    match goal with |- context [Qle_bool ?a ?b] => destruct (Qle_bool a b) end;
    reflexivity.
Qed.

(** Conviction of a finite health score: [35 + |health - 50|] clamped. *)
Lemma convictionOf_clamped (h : Q) :
  convictionOf (Fin h)
  = clamp (Fin (35 + Qabs (h - 50))) (Fin 10) (Fin 90).
Proof. reflexivity. Qed.

Lemma convictionOf_within (h : Q) : within 10 90 (convictionOf (Fin h)).
Proof.
  rewrite convictionOf_clamped, clamp_Fin.
  generalize (35 + Qabs (h - 50))%Q. intro c. cbv zeta.
  qcases; simpl; lra.
Qed.

Lemma convictionOf_Fin (h : Q) :
  (10 <= h <= 95)%Q ->
  exists c : Q, convictionOf (Fin h) = Fin c /\ (c == 35 + Qabs (h - 50))%Q.
Proof.
  intro Hh. rewrite convictionOf_clamped, clamp_Fin.
  assert (Ha : (0 <= Qabs (h - 50) <= 45)%Q).
  { split; [apply Qabs_nonneg|]. apply Qabs_case; intros; lra. }
  revert Ha. generalize (Qabs (h - 50)). intros a Ha. cbv zeta.
  eexists. split; [reflexivity|].
  destruct (Qle_bool 10 (35 + a)) eqn:E10;
    [apply Qle_bool_iff in E10 | apply Qle_bool_false in E10];
    qcases; lra.
Qed.

(** The rating decision on finite composites. *)
Lemma ratingOf_Fin (h b : Q) :
  (ratingOf (Fin h) (Fin b) = BUY <-> (72 <= h /\ 60 <= b)%Q)
  /\ (ratingOf (Fin h) (Fin b) = SELL <->
      ~ (72 <= h /\ 60 <= b)%Q /\ (h <= 40 \/ b <= 40)%Q)
  /\ (ratingOf (Fin h) (Fin b) = HOLD <->
      ~ (72 <= h /\ 60 <= b)%Q /\ ~ (h <= 40 \/ b <= 40)%Q).
Proof.
  unfold ratingOf, geb. simpl.
  qcases; simpl; repeat split; intros; try discriminate;
    try lra; try tauto;
    repeat match goal with
    | Hc : _ /\ _ |- _ => destruct Hc
    | Hc : _ \/ _ |- _ => destruct Hc
    | Hc : ~ _ |- _ => exfalso; apply Hc; clear Hc
    | |- _ /\ _ => split
    | |- ~ _ => intro
    end; try lra; try tauto; try discriminate.
Qed.

(** The five factor scores of any snapshot are finite and between 10 and 95. *)
Lemma factor_scores_finite `{Host} (s : MarketSnapshot) :
  exists v q g m r : Q,
    scoreValue s = Fin v /\ scoreQuality s = Fin q /\ scoreGrowth s = Fin g
    /\ scoreMomentum s = Fin m /\ scoreRisk s = Fin r
    /\ (10 <= v <= 95)%Q /\ (10 <= q <= 95)%Q /\ (10 <= g <= 95)%Q
    /\ (10 <= m <= 95)%Q /\ (10 <= r <= 95)%Q.
Proof.
  destruct (within_Fin _ _ _ (scoreValue_within s)) as (v & Hv & Bv).
  destruct (within_Fin _ _ _ (scoreQuality_within s)) as (q & Hq & Bq).
  destruct (within_Fin _ _ _ (scoreGrowth_within s)) as (g & Hg & Bg).
  destruct (within_Fin _ _ _ (scoreMomentum_within s)) as (m & Hm & Bm).
  destruct (within_Fin _ _ _ (scoreRisk_within s)) as (r & Hr & Br).
  exists v, q, g, m, r. tauto.
Qed.

(* ================================================================== *)
(** ** Properties of [computeQuantAnalysis] *)




(* ================================================================== *)
(** ** Double precision: rounding never invents a [NaN] *)


Lemma shr_1_nonneg (mrs : SpecFloat.shr_record) :
  (0 <= SpecFloat.shr_m mrs)%Z ->
  (0 <= SpecFloat.shr_m (SpecFloat.shr_1 mrs))%Z.
Proof.
  destruct mrs as [m r s]. cbn [SpecFloat.shr_m].
  destruct m as [|[p|p|]|[p|p|]]; cbn; lia.
Qed.

Lemma iter_shr_1_nonneg (p : positive) :
  forall mrs : SpecFloat.shr_record,
    (0 <= SpecFloat.shr_m mrs)%Z ->
    (0 <= SpecFloat.shr_m (SpecFloat.iter_pos SpecFloat.shr_1 p mrs))%Z.
Proof.
  induction p as [p IH|p IH|]; intros mrs Hm; cbn [SpecFloat.iter_pos].
  - apply IH, IH, shr_1_nonneg, Hm.
  - apply IH, IH, Hm.
  - apply shr_1_nonneg, Hm.
Qed.

Lemma shr_fexp_nonneg (m e : Z) (l : SpecFloat.location) :
  (0 <= m)%Z ->
  (0 <= SpecFloat.shr_m
          (fst (SpecFloat.shr_fexp Double.prec Double.emax m e l)))%Z.
Proof.
  intro Hm. unfold SpecFloat.shr_fexp, SpecFloat.shr.
  assert (H0 : (0 <= SpecFloat.shr_m (SpecFloat.shr_record_of_loc m l))%Z)
    by (destruct l as [|[| |]]; exact Hm).
  destruct (_ - e)%Z; cbn [fst]; auto using iter_shr_1_nonneg.
Qed.

Lemma round_nearest_even_nonneg (m : Z) (l : SpecFloat.location) :
  (0 <= m)%Z -> (0 <= SpecFloat.round_nearest_even m l)%Z.
Proof.
  intro Hm. destruct l as [|[| |]]; cbn [SpecFloat.round_nearest_even];
    try destruct (Z.even m); lia.
Qed.

(** Rounding a non-negative mantissa gives a zero, a finite float or an
    infinity. *)
Lemma binary_round_aux_number (s : bool) (m e : Z) (l : SpecFloat.location) :
  (0 <= m)%Z ->
  Double.isnan (SpecFloat.binary_round_aux Double.prec Double.emax s m e l)
  = false.
Proof.
  intro Hm. unfold SpecFloat.binary_round_aux.
  pose proof (shr_fexp_nonneg m e l Hm) as H1.
  destruct (SpecFloat.shr_fexp Double.prec Double.emax m e l) as [mrs' e'].
  cbn [fst] in H1.
  pose proof (shr_fexp_nonneg _ e' SpecFloat.loc_Exact
                (round_nearest_even_nonneg _
                   (SpecFloat.loc_of_shr_record mrs') H1)) as H2.
  destruct (SpecFloat.shr_fexp Double.prec Double.emax _ e' _) as [mrs'' e''].
  cbn [fst] in H2.
  destruct (SpecFloat.shr_m mrs'') as [|p|p]; [reflexivity| |lia].
  destruct (e'' <=? _)%Z; reflexivity.
Qed.

Lemma binary_normalize_number (m e : Z) (sz : bool) :
  Double.isnan (SpecFloat.binary_normalize Double.prec Double.emax m e sz)
  = false.
Proof.
  unfold SpecFloat.binary_normalize, SpecFloat.binary_round.
  destruct m as [|p|p]; [reflexivity| |];
    destruct (SpecFloat.shl_align _ _ _) as [mz ez];
    apply binary_round_aux_number; lia.
Qed.

Lemma SFadd_number (x y : SpecFloat.spec_float) :
  Double.isfinite x = true -> Double.isnan y = false ->
  Double.isnan (SpecFloat.SFadd Double.prec Double.emax x y) = false.
Proof.
  destruct x as [sx|sx| |sx mx ex], y as [sy|sy| |sy my ey];
    try discriminate; intros _ _; cbn [SpecFloat.SFadd];
    try reflexivity; try apply binary_normalize_number.
  destruct sx, sy; reflexivity.
Qed.

Lemma SFsub_number (x y : SpecFloat.spec_float) :
  Double.isnan x = false -> Double.isfinite y = true ->
  Double.isnan (SpecFloat.SFsub Double.prec Double.emax x y) = false.
Proof.
  destruct x as [sx|sx| |sx mx ex], y as [sy|sy| |sy my ey];
    try discriminate; intros _ _; cbn [SpecFloat.SFsub];
    try reflexivity; try apply binary_normalize_number.
  destruct sx, sy; reflexivity.
Qed.

Lemma SFmul_number (x y : SpecFloat.spec_float) :
  Double.isnan x = false -> Double.isnormal y = true ->
  Double.isnan (SpecFloat.SFmul Double.prec Double.emax x y) = false.
Proof.
  destruct x as [sx|sx| |sx mx ex], y as [sy|sy| |sy my ey];
    try discriminate; intros _ _; cbn [SpecFloat.SFmul];
    try reflexivity. apply binary_round_aux_number. lia.
Qed.

Lemma SFdiv_number (x y : SpecFloat.spec_float) :
  Double.isnan x = false -> Double.isnormal y = true ->
  Double.isnan (SpecFloat.SFdiv Double.prec Double.emax x y) = false.
Proof.
  destruct x as [sx|sx| |sx mx ex], y as [sy|sy| |sy my ey];
    try discriminate; intros _ _; cbn [SpecFloat.SFdiv];
    try reflexivity.
  unfold SpecFloat.SFdiv_core_binary.
  set (e' := Z.min _ _). set (m' := match (ex - ey - e')%Z with
                                     | Z0 => Z.pos mx
                                     | Z.pos _ => Z.shiftl (Z.pos mx) (ex - ey - e')
                                     | Z.neg _ => 0%Z
                                     end).
  assert (Hm' : (0 <= m')%Z).
  { subst m'. destruct (ex - ey - e')%Z; try lia.
    apply Z.shiftl_nonneg. lia. }
  pose proof (Z.div_pos m' (Z.pos my) Hm' eq_refl) as Hq.
  unfold Z.div in Hq.
  destruct (Z.div_eucl m' (Z.pos my)) as [q r].
  apply binary_round_aux_number, Hq.
Qed.

Lemma toFloat_number (a : number) :
  isNaN a = false -> Double.isnan (Double.toFloat a) = false.
Proof.
  destruct a as [| | |q]; try discriminate; try reflexivity. intros _.
  cbn [Double.toFloat]. apply SFdiv_number; [|reflexivity].
  destruct (Qnum q); reflexivity.
Qed.

Lemma ofFloat_number (f : SpecFloat.spec_float) :
  Double.isnan f = false -> isNaN (Double.ofFloat f) = false.
Proof. destruct f as [s|[|]| |s m e]; try discriminate; reflexivity. Qed.

Lemma SFmul_comm (x y : SpecFloat.spec_float) :
  SpecFloat.SFmul Double.prec Double.emax x y
  = SpecFloat.SFmul Double.prec Double.emax y x.
Proof.
  destruct x as [sx|sx| |sx mx ex], y as [sy|sy| |sy my ey];
    cbn [SpecFloat.SFmul]; try reflexivity;
    try (rewrite (xorb_comm sx sy); reflexivity).
  rewrite (xorb_comm sx sy), (Pos.mul_comm mx my), (Z.add_comm ex ey).
  reflexivity.
Qed.

Lemma Double_mul_comm (a b : number) : Double.mul a b = Double.mul b a.
Proof. unfold Double.mul. rewrite SFmul_comm. reflexivity. Qed.

(* ================================================================== *)
(** ** The engine in double precision *)

Lemma scoreFromBandOrNull_band (v lo hi : number) :
  Binary64.scoreFromBandOrNull (Some v) lo hi = Some (Spec64.band lo hi v).
Proof.
  unfold Binary64.scoreFromBandOrNull, Spec64.band.
  destruct (Double.leb v lo); [reflexivity|].
  destruct (Double.geb v hi); reflexivity.
Qed.

(** A band with finite bounds that differ maps a number to a number. *)
Lemma band_number (v lo hi : number) :
  isNaN v = false ->
  Double.isfinite (Double.toFloat lo) = true ->
  Double.isnormal (Double.toFloat (Double.sub hi lo)) = true ->
  isNaN (Spec64.band lo hi v) = false.
Proof.
  intros Hv Hlo Hwidth. unfold Spec64.band.
  destruct (Double.leb v lo); [reflexivity|].
  destruct (Double.geb v hi); [reflexivity|].
  apply ofFloat_number, SFadd_number; [reflexivity|].
  apply toFloat_number, ofFloat_number, SFmul_number; [|reflexivity].
  apply toFloat_number, ofFloat_number, SFdiv_number; [|exact Hwidth].
  apply toFloat_number, ofFloat_number, SFsub_number; [|exact Hlo].
  apply toFloat_number, Hv.
Qed.

Lemma finiteOrAbsent_number (x : number) :
  finiteOrAbsent (Some x) -> isNaN x = false.
Proof. destruct x; simpl; intros []; reflexivity. Qed.

(** C5. The two composites are the fixed-weight blends of the five factor
    scores of the snapshot, summed left to right in doubles as the host
    does, and rounded; valuation, profitability and tone are the value,
    quality and momentum scores. *)
Theorem composite_scores_are_rounded_blends `{Host} (s : MarketSnapshot) :
  let a := Binary64.computeQuantAnalysis s in
  let value := Binary64.scoreValue s in
  let quality := Binary64.scoreQuality s in
  let growth := Binary64.scoreGrowth s in
  let momentum := Binary64.scoreMomentum s in
  let risk := Binary64.scoreRisk s in
  balanceScore a
  = Double.Math_round
      (Fin 0.25 * value + Fin 0.25 * quality + Fin 0.25 * growth
       + Fin 0.15 * risk + Fin 0.10 * momentum)%dbl
  /\ healthScore a
     = Double.Math_round
         (Fin 0.20 * value + Fin 0.25 * quality + Fin 0.30 * growth
          + Fin 0.15 * momentum + Fin 0.10 * risk)%dbl
  /\ valuationScore a = value /\ profitabilityScore a = quality
  /\ growthScore a = growth /\ toneScore a = momentum.
Proof.
  cbv zeta. unfold Binary64.computeQuantAnalysis.
  cbn [balanceScore healthScore valuationScore profitabilityScore
       growthScore toneScore].
  unfold Binary64.balanceOf, Binary64.healthOf.
  rewrite !(Double_mul_comm (Fin _)).
  repeat apply conj; reflexivity.
Qed.

(** The blend at a tie: the exact health blend of [nearTie] is 71.5, which
    rounds to 72 and rates BUY; summed in doubles it is 71.49999999999999,
    which rounds to 71 and rates HOLD. *)
Example near_tie_rounds_down :
  let a := Binary64.computeQuantAnalysis (H := sampleHost) Spec64.nearTie in
  let e := QuantModel.computeQuantAnalysis (H := sampleHost) Spec64.nearTie in
  valuationScore a = Fin 94 /\ profitabilityScore a = Fin 95
  /\ growthScore a = Fin 71 /\ toneScore a = Fin 19
  /\ Binary64.scoreRisk (H := sampleHost) Spec64.nearTie = Fin 48
  /\ (Fin 0.20 * Fin 94 + Fin 0.25 * Fin 95 + Fin 0.30 * Fin 71
      + Fin 0.15 * Fin 19 + Fin 0.10 * Fin 48 <? Fin 71.5)%dbl = true
  /\ (0.20 * 94 + 0.25 * 95 + 0.30 * 71 + 0.15 * 19 + 0.10 * 48 == 71.5)%Q
  /\ healthScore a = Fin 71 /\ rating a = HOLD /\ conviction a = Fin 56
  /\ healthScore e = Fin 72 /\ rating e = BUY /\ conviction e = Fin 57.
Proof. vm_compute. repeat split. Qed.

(* ================================================================== *)
(** ** The growth fallback *)

Lemma fundamentalGrowth_stage (s : MarketSnapshot) :
  finiteOrAbsent (revenueGrowth s) -> finiteOrAbsent (epsGrowth s) ->
  Binary64.fundamentalGrowthScore s
  = Spec64.fundamentalGrowthSpec (revenueGrowth s) (epsGrowth s).
Proof.
  intros Hrev Heps.
  unfold Binary64.fundamentalGrowthScore, Spec64.fundamentalGrowthSpec.
  destruct (revenueGrowth s) as [r|], (epsGrowth s) as [e|];
    cbv zeta; rewrite ?scoreFromBandOrNull_band;
    unfold Binary64.avgScoresOrNull; cbn [numericScores Binary64.scoreFromBandOrNull];
    rewrite ?(band_number r (Fin 0) (Fin 0.35)
                (finiteOrAbsent_number r Hrev) eq_refl eq_refl),
            ?(band_number e (Fin 0) (Fin 0.45)
                (finiteOrAbsent_number e Heps) eq_refl eq_refl);
    reflexivity.
Qed.

Lemma priceGrowth_stage (s : MarketSnapshot) :
  Binary64.priceGrowthScore s
  = Spec64.priceGrowthSpec (fiftyTwoWeekChangePct s) (price s)
      (fiftyTwoWeekLow s) (fiftyTwoWeekHigh s).
Proof.
  unfold Binary64.priceGrowthScore, Spec64.priceGrowthSpec.
  destruct (fiftyTwoWeekChangePct s) as [c|].
  { apply scoreFromBandOrNull_band. }
  destruct (price s) as [p|], (fiftyTwoWeekLow s) as [lo|],
    (fiftyTwoWeekHigh s) as [hi|]; try reflexivity.
  destruct (Double.gtb hi lo); [|reflexivity].
  apply scoreFromBandOrNull_band.
Qed.

Lemma combined_growth (fundamental priceBased : option number) :
  Binary64.avgScores
    match fundamental with
    | Some f => [Some f; priceBased]
    | None => [priceBased]
    end
  = Spec64.growthSpec fundamental priceBased.
Proof.
  unfold Spec64.growthSpec, Spec64.present, Binary64.avgScores.
  destruct fundamental as [f|], priceBased as [g|]; cbn [numericScores];
    try destruct (isNaN f); try destruct (isNaN g); reflexivity.
Qed.

(** C6. The growth score follows the two-stage fallback, every step in
    doubles.  For a snapshot whose revenue growth and EPS growth are finite
    when present: fundamental growth is the average of the revenue-growth
    band over [[0, 0.35]] and the EPS-growth band over [[0, 0.45]], absent
    only when both are; price growth is the 52-week change banded over
    [[-40, 150]] when present, else the position in the 52-week range banded
    over [[0, 1]] when price and both bounds are present with [high > low],
    else absent; the score is the average of the stage results that are
    present, and 50 when neither is. *)
Theorem scoreGrowth_two_stage_fallback `{Host} (s : MarketSnapshot)
  (Hrev : finiteOrAbsent (revenueGrowth s))
  (Heps : finiteOrAbsent (epsGrowth s)) :
  let fundamental :=
    Spec64.fundamentalGrowthSpec (revenueGrowth s) (epsGrowth s) in
  let priceBased :=
    Spec64.priceGrowthSpec (fiftyTwoWeekChangePct s) (price s)
      (fiftyTwoWeekLow s) (fiftyTwoWeekHigh s) in
  Binary64.fundamentalGrowthScore s = fundamental
  /\ (fundamental = None <-> revenueGrowth s = None /\ epsGrowth s = None)
  /\ Binary64.priceGrowthScore s = priceBased
  /\ growthScore (Binary64.computeQuantAnalysis s)
     = Spec64.growthSpec fundamental priceBased.
Proof.
  cbv zeta. split; [apply fundamentalGrowth_stage; assumption|].
  split.
  { unfold Spec64.fundamentalGrowthSpec.
    destruct (revenueGrowth s), (epsGrowth s); split;
      try discriminate; try tauto; intros [? ?]; discriminate. }
  split; [apply priceGrowth_stage|].
  unfold Binary64.computeQuantAnalysis. cbn [growthScore].
  unfold Binary64.scoreGrowth. cbv zeta.
  rewrite fundamentalGrowth_stage, priceGrowth_stage by assumption.
  apply combined_growth.
Qed.

Lemma scoreGrowth_two_stage_fallback_witness :
  growthScore
    (Binary64.computeQuantAnalysis (H := sampleHost)
       (Spec64.inRange (Some (Fin 0.25)) 203 100 270))
  = Fin 66.
Proof.
  destruct (scoreGrowth_two_stage_fallback (H := sampleHost)
              (Spec64.inRange (Some (Fin 0.25)) 203 100 270) I I)
    as (_ & _ & _ & ->).
  vm_compute. reflexivity.
Defined.

(** The position in the range at a tie: 203 in the range from 100 to 270
    bands to 61.5 exactly and to 61.49999999999999 in doubles, so the growth
    score is 61.  An overflowing range has no position and leaves the
    neutral 50. *)
Example range_position_rounds_down :
  Binary64.scoreGrowth (Spec64.inRange None 203 100 270) = Fin 61
  /\ QuantModel.scoreGrowth (Spec64.inRange None 203 100 270) = Fin 62
  /\ Binary64.scoreGrowth (Spec64.inRange None 1e308 (-1e308) 1e308) = Fin 50.
Proof. vm_compute. repeat split. Qed.

(* ================================================================== *)
(** ** Sample runs *)

Example blank_analysis :
  computeQuantAnalysis (H := sampleHost) (blankSnapshot "ACME" None)
  = {| rating := HOLD;
       conviction := Fin 35;
       toneScore := Fin 50;
       growthScore := Fin 50;
       profitabilityScore := Fin 50;
       valuationScore := Fin 50;
       balanceScore := Fin 50;
       healthScore := Fin 50;
       summary := "Quantitative snapshot for ACME (ACME) using valuation (P/E, PEG, P/S, P/B), growth (fundamental & price-based), profitability (margin & ROE), momentum, and basic risk proxies.";
       keyRisks := [riskProfitability; riskGrowth];
       thesis := "The composite health score of 50 blends 50 for growth, 50 for profitability, 50 for valuation, and 50 for risk characteristics. This currently supports a HOLD stance with about 35% conviction given the available data." |}.
Proof. reflexivity. Qed.

Example strong_fundamentals_analysis :
  let a := computeQuantAnalysis (H := sampleHost) (strongFundamentals 12) in
  valuationScore a = Fin 85 /\ growthScore a = Fin 95
  /\ profitabilityScore a = Fin 95 /\ toneScore a = Fin 10
  /\ balanceScore a = Fin 71 /\ healthScore a = Fin 72
  /\ conviction a = Fin 57 /\ keyRisks a = [riskGeneric]
  /\ thesis a = "The composite health score of 72 blends 95 for growth, 95 for profitability, 85 for valuation, and 10 for risk characteristics. This currently supports a BUY stance with about 57% conviction given the available data."%string.
Proof. repeat split. Qed.

Example band_midpoint :
  (scoreFromBand (Some (Fin 6.5)) (Fin 1) (Fin 12) <=? Fin 52.5) = true
  /\ (scoreFromBand (Some (Fin 6.5)) (Fin 1) (Fin 12) >=? Fin 52.5) = true.
Proof. split; reflexivity. Qed.

Example pe_twelve : scoreFromPeOrNull (Some (Fin 12)) = Some (Fin 85).
Proof. reflexivity. Qed.

(* ================================================================== *)
(** ** The all-absent snapshot *)

(** C1, as amended. For a snapshot in which every optional numeric field is
    absent, the six scores are 50, the rating is HOLD, the conviction is 35,
    and [keyRisks] holds the two data-completeness caveats, profitability
    first and growth second. *)
Theorem all_absent_is_neutral `{Host} (s : MarketSnapshot)
  (Habsent : allNumericAbsent s) :
  toneScore (computeQuantAnalysis s) = Fin 50
  /\ growthScore (computeQuantAnalysis s) = Fin 50
  /\ profitabilityScore (computeQuantAnalysis s) = Fin 50
  /\ valuationScore (computeQuantAnalysis s) = Fin 50
  /\ balanceScore (computeQuantAnalysis s) = Fin 50
  /\ healthScore (computeQuantAnalysis s) = Fin 50
  /\ rating (computeQuantAnalysis s) = HOLD
  /\ conviction (computeQuantAnalysis s) = Fin 35
  /\ keyRisks (computeQuantAnalysis s) = [riskProfitability; riskGrowth].
Proof.
  destruct s. unfold allNumericAbsent in Habsent. cbn in Habsent.
  decompose [and] Habsent. subst.
  repeat apply conj; reflexivity.
Qed.

Lemma all_absent_is_neutral_witness :
  allNumericAbsent (blankSnapshot "ACME" None)
  /\ keyRisks (computeQuantAnalysis (H := sampleHost) (blankSnapshot "ACME" None))
     = [riskProfitability; riskGrowth].
Proof.
  assert (Habsent : allNumericAbsent (blankSnapshot "ACME" None))
    by (repeat split).
  split; [exact Habsent|].
  apply (all_absent_is_neutral (H := sampleHost) _ Habsent).
Defined.

(** C1, as stated, fails: the all-absent snapshot gets two caveats, not the
    single generic one. *)
Lemma all_absent_not_single_generic_caveat :
  allNumericAbsent (blankSnapshot "ACME" None)
  /\ ~ maximallyNeutral
         (computeQuantAnalysis (H := sampleHost) (blankSnapshot "ACME" None)).
Proof.
  split; [repeat split|].
  unfold maximallyNeutral. intros (_ & _ & _ & _ & _ & _ & _ & _ & Hk).
  discriminate Hk.
Qed.

(* ================================================================== *)
(** ** Non-finite fields *)

(** The P/E path coerces a non-finite ratio to absent: the whole analysis is
    the one of the snapshot without a P/E ratio. *)
Lemma nonfinite_peRatio_is_absent `{Host} (s : MarketSnapshot) (x : number) :
  isFinite x = false ->
  computeQuantAnalysis (withPeRatio (Some x) s)
  = computeQuantAnalysis (withPeRatio None s).
Proof.
  intro Hx. unfold computeQuantAnalysis, scoreValue.
  cbn [peRatio withPeRatio]. rewrite (scoreFromPe_nonfinite x Hx).
  reflexivity.
Qed.

(** C2 fails on the band-scored fields.  A price-to-sales ratio of
    [+Infinity] saturates the band at 95 where the absent field gives the
    neutral 50; a [NaN] profit margin next to a present ROE suppresses the
    profitability caveat that the absent margin raises. *)
Theorem nonfinite_band_field_is_not_absent :
  valuationScore
    (computeQuantAnalysis (H := sampleHost)
       (withPriceToSales (Some PosInf) "ACME")) = Fin 95
  /\ valuationScore
       (computeQuantAnalysis (H := sampleHost)
          (withPriceToSales None "ACME")) = Fin 50
  /\ computeQuantAnalysis (H := sampleHost)
       (withPriceToSales (Some PosInf) "ACME")
     <> computeQuantAnalysis (H := sampleHost) (withPriceToSales None "ACME")
  /\ keyRisks
       (computeQuantAnalysis (H := sampleHost)
          (withProfitability (Some NaN) (Some (Fin 0.2)) "ACME"))
     = [riskGrowth]
  /\ keyRisks
       (computeQuantAnalysis (H := sampleHost)
          (withProfitability None (Some (Fin 0.2)) "ACME"))
     = [riskProfitability; riskGrowth].
Proof.
  split; [reflexivity|]. split; [reflexivity|].
  split; [|split; reflexivity].
  intro Heq. apply (f_equal valuationScore) in Heq.
  vm_compute in Heq. discriminate Heq.
Qed.

(* ================================================================== *)
(** ** The fields the engine reads *)

(** The analysis is a function of the fields the engine reads. *)
Lemma computeQuantAnalysis_reads `{Host} (s1 s2 : MarketSnapshot) :
  sameInputs s1 s2 -> computeQuantAnalysis s1 = computeQuantAnalysis s2.
Proof.
  destruct s1, s2. unfold sameInputs. cbn. intro Hsame.
  decompose [and] Hsame. subst. reflexivity.
Qed.

(* ================================================================== *)
(** ** Further properties of the averages *)

Lemma numericScores_app (l1 l2 : list (option number)) :
  numericScores (l1 ++ l2) = numericScores l1 ++ numericScores l2.
Proof.
  induction l1 as [|[x|] l1 IH]; simpl; [reflexivity| |exact IH].
  destruct (isNaN x); simpl; now rewrite IH.
Qed.

(** X1. Both averages skip a null or [NaN] entry wherever it stands: the
    result is the one of the list without that entry. *)
Theorem averages_skip_missing_entries
  (before after : list (option number)) (o : option number)
  (Hmissing : o = None \/ o = Some NaN) :
  avgScores (before ++ o :: after) = avgScores (before ++ after)
  /\ avgScoresOrNull (before ++ o :: after) = avgScoresOrNull (before ++ after).
Proof.
  unfold avgScores, avgScoresOrNull.
  rewrite !numericScores_app.
  destruct Hmissing as [-> | ->]; simpl; split; reflexivity.
Qed.

Lemma averages_skip_missing_entries_witness :
  avgScores [Some (Fin 80); Some NaN; Some (Fin 40)]
  = avgScores [Some (Fin 80); Some (Fin 40)]
  /\ avgScoresOrNull [Some (Fin 80); Some NaN; Some (Fin 40)]
     = avgScoresOrNull [Some (Fin 80); Some (Fin 40)].
Proof.
  apply (averages_skip_missing_entries [Some (Fin 80)] [Some (Fin 40)]
           (Some NaN)).
  right. reflexivity.
Defined.



(* ================================================================== *)
(** ** Further properties of the factor scorers *)

Lemma peCurve_integer (pe : Q) : exists z : Z, peCurve pe = inject_Z z.
Proof.
  unfold peCurve, roundQ.
  destruct (Qle_bool pe 0); [now exists 20%Z|].
  destruct (_ && _); [eexists; reflexivity|].
  destruct (_ && _); [eexists; reflexivity|].
  destruct (_ && _); [eexists; reflexivity|now exists 35%Z].
Qed.

Lemma avgScores_single_integer (z : Z) (rest : list (option number)) :
  numericScores rest = [] ->
  avgScores (Some (Fin (inject_Z z)) :: rest) = Fin (inject_Z z).
Proof.
  intro Hrest. unfold avgScores. cbn [numericScores isNaN]. rewrite Hrest.
  change (Math_round (sumOf [Fin (inject_Z z)] / lengthOf [Fin (inject_Z z)]))
    with (Fin (roundQ ((0 + inject_Z z) / 1))).
  f_equal. rewrite <- (roundQ_Z z) at 2. apply roundQ_comp. field.
Qed.



Lemma Math_abs_neg (c : number) : Math_abs (JS.neg c) = Math_abs c.
Proof.
  destruct c as [| | |[n d]]; try reflexivity.
  simpl. unfold Qabs, Qopp. simpl. now rewrite Z.abs_opp.
Qed.

(** X4. Tone does not see the sign of the distance from the 52-week high:
    two snapshots that differ only in the sign of [changeFrom52wHighPct] get
    the same momentum score. *)
Theorem scoreMomentum_ignores_sign_of_distance
  (s1 s2 : MarketSnapshot) (c : number)
  (Hday : change1dPct s1 = change1dPct s2)
  (Hyear : fiftyTwoWeekChangePct s1 = fiftyTwoWeekChangePct s2)
  (Hc1 : changeFrom52wHighPct s1 = Some c)
  (Hc2 : changeFrom52wHighPct s2 = Some (JS.neg c)) :
  scoreMomentum s1 = scoreMomentum s2.
Proof.
  unfold scoreMomentum. rewrite Hday, Hyear, Hc1, Hc2, Math_abs_neg.
  reflexivity.
Qed.

(** X5. A market cap that is zero, negative or [NaN] is dropped like an
    absent one: the risk score is the one of the same snapshot without a
    market cap, and [Math.log10] is not consulted. *)
Theorem scoreRisk_drops_nonpositive_marketCap `{Host}
  (s1 s2 : MarketSnapshot) (cap : number)
  (Hbeta : beta s1 = beta s2)
  (Hcap1 : marketCap s1 = Some cap)
  (Hnonpos : JS.gtb cap (Fin 0) = false)
  (Hcap2 : marketCap s2 = None) :
  scoreRisk s1 = scoreRisk s2.
Proof.
  unfold scoreRisk. rewrite Hbeta, Hcap1, Hcap2, Hnonpos, andb_false_r.
  reflexivity.
Qed.

Lemma scoreMomentum_ignores_sign_of_distance_witness :
  scoreMomentum (Samples.withMomentum None None (Some (Fin 12)))
  = scoreMomentum (Samples.withMomentum None None (Some (Fin (-12)))).
Proof.
  apply (scoreMomentum_ignores_sign_of_distance _ _ (Fin 12)); reflexivity.
Defined.

Lemma scoreRisk_drops_nonpositive_marketCap_witness :
  scoreRisk (H := sampleHost) (Samples.withRisk (Some (Fin 1.2)) (Some (Fin 0)))
  = scoreRisk (H := sampleHost) (Samples.withRisk (Some (Fin 1.2)) None).
Proof.
  apply (scoreRisk_drops_nonpositive_marketCap (H := sampleHost) _ _ (Fin 0));
    reflexivity.
Defined.

(* ================================================================== *)
(** ** Further properties of the composites *)

Lemma roundQ_ge_inv (z : Z) (x : Q) :
  (inject_Z z <= roundQ x)%Q -> (inject_Z z - (1 # 2) <= x)%Q.
Proof.
  unfold roundQ. intro Hz.
  pose proof (Qfloor_le (x + (1 # 2))) as Hf. lra.
Qed.

Lemma roundQ_le_inv (z : Z) (x : Q) :
  (roundQ x <= inject_Z z)%Q -> (x < inject_Z z + (1 # 2))%Q.
Proof.
  unfold roundQ. intro Hz.
  pose proof (Qlt_floor (x + (1 # 2))) as Hf.
  rewrite inject_Z_plus in Hf. change (inject_Z 1) with 1%Q in Hf. lra.
Qed.






(* ================================================================== *)
(** ** Monotonicity in the fundamentals *)

Import Order.

Lemma scoreLe_refl_entry (lo hi : Q) (o : option number) :
  entryWithin lo hi o -> scoreLe o o.
Proof.
  destruct o as [[| | |x]|]; simpl; try contradiction; intros _;
    constructor. apply Qle_refl.
Qed.

Lemma band_scoreLe (a b : option number) (mn mx : Q) :
  (mn < mx)%Q -> entryLe a b ->
  scoreLe (scoreFromBandOrNull a (Fin mn) (Fin mx))
          (scoreFromBandOrNull b (Fin mn) (Fin mx)).
Proof.
  intros Hband Hab.
  destruct a as [[| | |x]|], b as [[| | |y]|]; simpl in Hab;
    try contradiction; [|constructor].
  rewrite !scoreFromBandOrNull_Some.
  destruct (scoreFromBand_Fin mn mx x Hband) as (qx & -> & Hx).
  destruct (scoreFromBand_Fin mn mx y Hband) as (qy & -> & Hy).
  constructor. rewrite Hx, Hy. now apply bandQ_mono.
Qed.

(** Sums of entry-wise ordered lists are ordered and the lists keep the same
    number of numeric entries. *)
Lemma sumOf_scoreLe (l1 l2 : list (option number)) :
  Forall2 scoreLe l1 l2 ->
  forall a b : Q, (a <= b)%Q ->
  exists s1 s2 : Q,
    fold_left add (numericScores l1) (Fin a) = Fin s1
    /\ fold_left add (numericScores l2) (Fin b) = Fin s2
    /\ (s1 <= s2)%Q
    /\ List.length (numericScores l1) = List.length (numericScores l2).
Proof.
  induction 1 as [|o1 o2 r1 r2 Ho _ IH]; intros a b Hab.
  - exists a, b. repeat split; assumption.
  - destruct Ho as [| |x y Hxy]; cbn [numericScores isNaN].
    + now apply IH.
    + now apply IH.
    + cbn [fold_left JS.add List.length].
      destruct (IH (a + x)%Q (b + y)%Q) as (s1 & s2 & H1 & H2 & Hs & Hl);
        [lra|].
      exists s1, s2. repeat split; try assumption. now rewrite Hl.
Qed.

Lemma mean_scoreLe (l1 l2 : list (option number)) :
  Forall2 scoreLe l1 l2 ->
  numericScores l1 <> [] ->
  exists m1 m2 : Q,
    Math_round (sumOf (numericScores l1) / lengthOf (numericScores l1))
    = Fin m1
    /\ Math_round (sumOf (numericScores l2) / lengthOf (numericScores l2))
       = Fin m2
    /\ (m1 <= m2)%Q.
Proof.
  intros Hle Hne.
  destruct (sumOf_scoreLe l1 l2 Hle 0%Q 0%Q (Qle_refl 0))
    as (s1 & s2 & H1 & H2 & Hs & Hl).
  unfold sumOf, lengthOf. rewrite H1, H2, <- Hl.
  set (k := inject_Z (Z.of_nat (List.length (numericScores l1)))).
  assert (Hk : (0 < k)%Q).
  { unfold k. change 0%Q with (inject_Z 0). rewrite <- Zlt_Qlt.
    destruct (numericScores l1); [contradiction|simpl List.length; lia]. }
  cbn [JS.div]. destruct (Qeq_bool k 0) eqn:Ek.
  { apply Qeq_bool_iff in Ek. lra. }
  rewrite !Math_round_Fin. do 2 eexists. repeat split.
  apply roundQ_mono. unfold Qdiv. apply Qmult_le_compat_r; [exact Hs|].
  apply Qlt_le_weak, Qinv_lt_0_compat, Hk.
Qed.

Lemma numericScores_same_shape (l1 l2 : list (option number)) :
  Forall2 scoreLe l1 l2 ->
  (numericScores l1 = [] <-> numericScores l2 = []).
Proof.
  intro Hle.
  destruct (sumOf_scoreLe l1 l2 Hle 0%Q 0%Q (Qle_refl 0))
    as (_ & _ & _ & _ & _ & Hl).
  destruct (numericScores l1), (numericScores l2); simpl in Hl;
    try discriminate; split; intro; congruence.
Qed.

Lemma avgScores_scoreLe (l1 l2 : list (option number)) :
  Forall2 scoreLe l1 l2 ->
  exists m1 m2 : Q,
    avgScores l1 = Fin m1 /\ avgScores l2 = Fin m2 /\ (m1 <= m2)%Q.
Proof.
  intro Hle. pose proof (numericScores_same_shape l1 l2 Hle) as Hshape.
  pose proof (mean_scoreLe l1 l2 Hle) as Hmean.
  unfold avgScores.
  destruct (numericScores l1) as [|x1 r1] eqn:E1.
  - rewrite (proj1 Hshape eq_refl). exists 50%Q, 50%Q.
    repeat split. apply Qle_refl.
  - destruct (numericScores l2) as [|x2 r2] eqn:E2.
    + destruct Hshape as [_ Hs]. discriminate (Hs eq_refl).
    + apply Hmean. discriminate.
Qed.

Lemma avgScoresOrNull_scoreLe (l1 l2 : list (option number)) :
  Forall2 scoreLe l1 l2 ->
  scoreLe (avgScoresOrNull l1) (avgScoresOrNull l2).
Proof.
  intro Hle. pose proof (numericScores_same_shape l1 l2 Hle) as Hshape.
  pose proof (mean_scoreLe l1 l2 Hle) as Hmean.
  unfold avgScoresOrNull.
  destruct (numericScores l1) as [|x1 r1] eqn:E1.
  - rewrite (proj1 Hshape eq_refl). constructor.
  - destruct (numericScores l2) as [|x2 r2] eqn:E2.
    + destruct Hshape as [_ Hs]. discriminate (Hs eq_refl).
    + destruct Hmean as (m1 & m2 & -> & -> & Hm); [discriminate|].
      now constructor.
Qed.

Lemma scoreQuality_mono (s1 s2 : MarketSnapshot) :
  entryLe (profitMargin s1) (profitMargin s2) ->
  entryLe (roe s1) (roe s2) ->
  exists q1 q2 : Q,
    scoreQuality s1 = Fin q1 /\ scoreQuality s2 = Fin q2 /\ (q1 <= q2)%Q.
Proof.
  intros Hm Hr. apply avgScores_scoreLe.
  repeat constructor; apply band_scoreLe; auto; reflexivity.
Qed.

Lemma scoreMomentum_mono (s1 s2 : MarketSnapshot) :
  entryLe (change1dPct s1) (change1dPct s2) ->
  entryLe (fiftyTwoWeekChangePct s1) (fiftyTwoWeekChangePct s2) ->
  changeFrom52wHighPct s1 = changeFrom52wHighPct s2 ->
  exists m1 m2 : Q,
    scoreMomentum s1 = Fin m1 /\ scoreMomentum s2 = Fin m2 /\ (m1 <= m2)%Q.
Proof.
  intros Hd Hy Hc. apply avgScores_scoreLe. rewrite Hc.
  repeat constructor; try (apply band_scoreLe; auto; reflexivity).
  apply (scoreLe_refl_entry 10 95), scoreFromBandOrNull_entry. reflexivity.
Qed.

Lemma priceGrowthScore_mono (s1 s2 : MarketSnapshot) :
  entryLe (fiftyTwoWeekChangePct s1) (fiftyTwoWeekChangePct s2) ->
  price s1 = price s2 ->
  fiftyTwoWeekLow s1 = fiftyTwoWeekLow s2 ->
  fiftyTwoWeekHigh s1 = fiftyTwoWeekHigh s2 ->
  scoreLe (priceGrowthScore s1) (priceGrowthScore s2).
Proof.
  intros Hy Hp Hl Hh.
  pose proof (priceGrowthScore_entry s2) as He.
  unfold priceGrowthScore in *. rewrite Hp, Hl, Hh.
  destruct (fiftyTwoWeekChangePct s1) as [[| | |x]|],
           (fiftyTwoWeekChangePct s2) as [[| | |y]|];
    simpl in Hy; try contradiction.
  - apply (band_scoreLe (Some (Fin x)) (Some (Fin y))); [reflexivity|exact Hy].
  - exact (scoreLe_refl_entry 10 95 _ He).
Qed.

Lemma scoreGrowth_mono (s1 s2 : MarketSnapshot) :
  entryLe (revenueGrowth s1) (revenueGrowth s2) ->
  entryLe (epsGrowth s1) (epsGrowth s2) ->
  entryLe (fiftyTwoWeekChangePct s1) (fiftyTwoWeekChangePct s2) ->
  price s1 = price s2 ->
  fiftyTwoWeekLow s1 = fiftyTwoWeekLow s2 ->
  fiftyTwoWeekHigh s1 = fiftyTwoWeekHigh s2 ->
  exists g1 g2 : Q,
    scoreGrowth s1 = Fin g1 /\ scoreGrowth s2 = Fin g2 /\ (g1 <= g2)%Q.
Proof.
  intros Hr He Hy Hp Hl Hh. unfold scoreGrowth.
  pose proof (priceGrowthScore_mono s1 s2 Hy Hp Hl Hh) as Hprice.
  assert (Hfund : scoreLe
            (avgScoresOrNull
               [scoreFromBandOrNull (revenueGrowth s1) (Fin 0) (Fin 0.35);
                scoreFromBandOrNull (epsGrowth s1) (Fin 0) (Fin 0.45)])
            (avgScoresOrNull
               [scoreFromBandOrNull (revenueGrowth s2) (Fin 0) (Fin 0.35);
                scoreFromBandOrNull (epsGrowth s2) (Fin 0) (Fin 0.45)])).
  { apply avgScoresOrNull_scoreLe.
    repeat constructor; apply band_scoreLe; auto; reflexivity. }
  inversion Hfund as [E1 E2 | E1 E2 | x y Hxy E1 E2];
    apply avgScores_scoreLe; repeat constructor; assumption.
Qed.





(* ================================================================== *)
(** ** The narrative *)

(** X11. The caveat list is never empty and never longer than two; it holds
    the profitability caveat exactly when margin or ROE is null, the growth
    caveat exactly when revenue or EPS growth is null, and the generic caveat
    exactly when none of the four is null. *)
Theorem keyRisks_shape `{Host} (s : MarketSnapshot) :
  keyRisks (computeQuantAnalysis s) <> []
  /\ (List.length (keyRisks (computeQuantAnalysis s)) <= 2)%nat
  /\ (In riskProfitability (keyRisks (computeQuantAnalysis s))
      <-> profitMargin s = None \/ roe s = None)
  /\ (In riskGrowth (keyRisks (computeQuantAnalysis s))
      <-> revenueGrowth s = None \/ epsGrowth s = None)
  /\ (In riskGeneric (keyRisks (computeQuantAnalysis s))
      <-> profitMargin s <> None /\ roe s <> None
          /\ revenueGrowth s <> None /\ epsGrowth s <> None).
Proof.
  unfold computeQuantAnalysis. cbn [keyRisks]. unfold keyRisksOf.
  destruct (profitMargin s), (roe s), (revenueGrowth s), (epsGrowth s);
    cbn [isNull orb app List.length Nat.eqb In];
    (split; [discriminate|]); (split; [lia|]);
    repeat split; intros;
    repeat match goal with
    | Hc : _ \/ _ |- _ => destruct Hc
    | Hc : _ /\ _ |- _ => destruct Hc
    | Hc : False |- _ => contradiction
    | Hc : Some _ = None |- _ => discriminate Hc
    | Hc : None <> None |- _ => contradiction Hc; reflexivity
    | Hc : riskProfitability = _ |- _ => discriminate Hc
    | Hc : riskGrowth = _ |- _ => discriminate Hc
    | Hc : riskGeneric = _ |- _ => discriminate Hc
    end;
    try discriminate; auto.
Qed.

Lemma avgScores_integer (lo hi : Q) (scores : list (option number)) :
  within lo hi (avgScores scores) ->
  exists z : Z, avgScores scores = Fin (inject_Z z).
Proof.
  unfold avgScores. destruct (numericScores scores) as [|x rest].
  - intros _. now exists 50%Z.
  - destruct (sumOf _ / lengthOf _); simpl; try contradiction.
    intros _. eexists. reflexivity.
Qed.

Lemma within_inject_Z (lo hi z : Z) :
  within (inject_Z lo) (inject_Z hi) (Fin (inject_Z z)) -> (lo <= z <= hi)%Z.
Proof. simpl. rewrite <- !Zle_Qle. auto. Qed.

(** A finite number that is an integer below 10^21 in size is rendered as
    that integer. *)
Lemma toString_integer `{Host} (x : Q) (z : Z) :
  (x == inject_Z z)%Q -> (Z.abs z < 10 ^ 21)%Z ->
  toString (Fin x) = Z_toString z.
Proof.
  intros Hx Hz. unfold toString.
  assert (Hf : Qfloor x = z) by (rewrite (Qfloor_comp _ _ Hx); apply Qfloor_Z).
  rewrite Hf.
  assert (E1 : Qeq_bool x (inject_Z z) = true) by now apply Qeq_bool_iff.
  assert (E2 : (Z.abs z <? 10 ^ 21)%Z = true) by now apply Z.ltb_lt.
  now rewrite E1, E2.
Qed.

(** The factor scores are integers between 10 and 95. *)
Lemma factor_scores_integer `{Host} (s : MarketSnapshot) :
  exists v q g m r : Z,
    scoreValue s = Fin (inject_Z v) /\ scoreQuality s = Fin (inject_Z q)
    /\ scoreGrowth s = Fin (inject_Z g) /\ scoreMomentum s = Fin (inject_Z m)
    /\ scoreRisk s = Fin (inject_Z r)
    /\ (10 <= v <= 95)%Z /\ (10 <= q <= 95)%Z /\ (10 <= g <= 95)%Z
    /\ (10 <= m <= 95)%Z /\ (10 <= r <= 95)%Z.
Proof.
  pose proof (scoreValue_within s) as Wv.
  pose proof (scoreQuality_within s) as Wq.
  pose proof (scoreGrowth_within s) as Wg.
  pose proof (scoreMomentum_within s) as Wm.
  pose proof (scoreRisk_within s) as Wr.
  destruct (avgScores_integer _ _ _ Wv) as (v & Ev).
  destruct (avgScores_integer _ _ _ Wq) as (q & Eq).
  assert (Eg : exists g, scoreGrowth s = Fin (inject_Z g)).
  { unfold scoreGrowth in *. eapply avgScores_integer. exact Wg. }
  destruct Eg as (g & Eg).
  destruct (avgScores_integer _ _ _ Wm) as (m & Em).
  destruct (avgScores_integer _ _ _ Wr) as (r & Er).
  exists v, q, g, m, r.
  unfold scoreValue, scoreQuality, scoreMomentum, scoreRisk in *.
  rewrite Ev in Wv. rewrite Eq in Wq. rewrite Eg in Wg.
  rewrite Em in Wm. rewrite Er in Wr.
  repeat (split; [assumption|]).
  repeat split; apply (within_inject_Z 10 95); assumption.
Qed.

Lemma Qabs_distance_integer (h : Z) :
  (35 + Qabs (inject_Z h - 50) == inject_Z (35 + Z.abs (h - 50)))%Q.
Proof.
  assert (E : (inject_Z h - 50 == inject_Z (h - 50))%Q).
  { unfold Z.sub. rewrite inject_Z_plus, inject_Z_opp. reflexivity. }
  rewrite E, inject_Z_plus. reflexivity.
Qed.


(* ================================================================== *)
(** ** The callers' all-50 test and the fallback analysis *)

Lemma roundQ_eq_iff (x : Q) (z : Z) :
  roundQ x = inject_Z z
  <-> (inject_Z z - (1 # 2) <= x /\ x < inject_Z z + (1 # 2))%Q.
Proof.
  unfold roundQ. split.
  - pose proof (Qfloor_le (x + (1 # 2))) as Hlo.
    pose proof (Qlt_floor (x + (1 # 2))) as Hhi.
    set (f := Qfloor (x + (1 # 2))) in *.
    intro E. injection E as E.
    rewrite E in Hlo, Hhi. rewrite inject_Z_plus in Hhi.
    change (inject_Z 1) with 1%Q in Hhi. split; lra.
  - intros [Hlo Hhi]. f_equal.
    pose proof (Qfloor_le (x + (1 # 2))) as Flo.
    pose proof (Qlt_floor (x + (1 # 2))) as Fhi.
    set (f := Qfloor (x + (1 # 2))) in *.
    assert (H1 : (inject_Z f < inject_Z (z + 1))%Q).
    { rewrite inject_Z_plus. change (inject_Z 1) with 1%Q. lra. }
    assert (H2 : (inject_Z z < inject_Z (f + 1))%Q) by lra.
    rewrite <- Zlt_Qlt in H1, H2. lia.
Qed.

Lemma strictEq_integer (z c : Z) :
  Callers.strictEq (Fin (inject_Z z)) (Fin (inject_Z c)) = true <-> z = c.
Proof.
  simpl. rewrite Qeq_bool_iff. apply inject_Z_injective.
Qed.

(** The composites are 50 on four neutral factor scores exactly when the
    risk score is within three points of 50. *)
Lemma neutral_composites_iff (r : Z) :
  (balanceSpec 50 50 50 (inject_Z r) 50 = inject_Z 50
   /\ healthSpec 50 50 50 50 (inject_Z r) = inject_Z 50)
  <-> (47 <= r <= 53)%Z.
Proof.
  unfold balanceSpec, healthSpec. rewrite !roundQ_eq_iff.
  change (inject_Z 50) with 50%Q. split.
  - intros [[B1 B2] _].
    assert (H1 : (inject_Z 46 < inject_Z r)%Q)
      by (change (inject_Z 46) with 46%Q; lra).
    assert (H2 : (inject_Z r < inject_Z 54)%Q)
      by (change (inject_Z 54) with 54%Q; lra).
    rewrite <- Zlt_Qlt in H1, H2. lia.
  - intros [H1 H2]. rewrite Zle_Qle in H1, H2.
    change (inject_Z 47) with 47%Q in H1.
    change (inject_Z 53) with 53%Q in H2.
    repeat split; lra.
Qed.

Lemma strictEq_roundQ_50 (x : Q) :
  Callers.strictEq (Fin (roundQ x)) (Fin (inject_Z 50)) = true
  <-> roundQ x = inject_Z 50.
Proof.
  unfold roundQ. set (f := Qfloor (x + (1 # 2))).
  rewrite strictEq_integer. split; [intros ->; reflexivity|].
  intro E. now apply inject_Z_injective; rewrite E.
Qed.


(** X14. When the fetch returns nothing, or a snapshot without any numeric
    field, the analyze-stock route reports [FALLBACK_ANALYSIS] (conviction
    40, one caveat) rather than the engine's neutral analysis. *)
Theorem finalAnalysis_without_data_is_fallback `{Host}
  (fetched : option MarketSnapshot) (t : string)
  (Hnodata : match fetched with
             | Some s => allNumericAbsent s
             | None => True
             end) :
  Callers.finalAnalysis fetched t = Callers.FALLBACK_ANALYSIS.
Proof.
  unfold Callers.finalAnalysis.
  assert (Habsent : allNumericAbsent
            match fetched with
            | Some s => s
            | None => Callers.placeholderSnapshot t
            end).
  { destruct fetched; [exact Hnodata|]. repeat split. }
  clear Hnodata. revert Habsent.
  generalize (match fetched with
              | Some s => s
              | None => Callers.placeholderSnapshot t
              end).
  intros s Habsent. destruct s. unfold allNumericAbsent in Habsent.
  cbn in Habsent. decompose [and] Habsent. subst. reflexivity.
Qed.

Lemma finalAnalysis_without_data_is_fallback_witness :
  Callers.finalAnalysis (H := sampleHost) None "ACME"
  = Callers.FALLBACK_ANALYSIS.
Proof.
  apply (finalAnalysis_without_data_is_fallback (H := sampleHost) None).
  exact I.
Defined.

(* ================================================================== *)
(** ** The recommendation ranking *)

Lemma n_within (lo hi : Q) (o : option number) :
  (lo <= 50 <= hi)%Q -> storedWithin lo hi o -> within lo hi (Recommend.n o).
Proof.
  intros H50 Ho. destruct o as [[| | |x]|]; simpl in *; auto.
Qed.

Lemma scoreForProfile_convex (lo hi : Q) (s : Recommend.StockRecord)
  (profile : Recommend.RiskProfile) :
  (lo <= 50 <= hi)%Q -> recordWithin lo hi s ->
  within lo hi (Recommend.scoreForProfile s profile).
Proof.
  intros H50 (Ht & Hg & Hp & Hv & Hb & Hh).
  apply (n_within lo hi _ H50), within_Fin in Ht, Hg, Hp, Hv, Hb, Hh.
  destruct Ht as (t & Et & Bt), Hg as (g & Eg & Bg), Hp as (p & Ep & Bp),
    Hv as (v & Ev & Bv), Hb as (b & Eb & Bb), Hh as (h & Eh & Bh).
  unfold Recommend.scoreForProfile. rewrite Et, Eg, Ep, Ev, Eb, Eh.
  destruct profile; cbn [JS.mul JS.add within]; lra.
Qed.



(** X16. A record whose six stored scores are each missing, not finite or
    exactly 50 is reported with a profile score of 50 under every profile. *)
Theorem neutral_record_scores_50
  (s : Recommend.StockRecord) (profile : Recommend.RiskProfile)
  (Hneutral : recordWithin 50 50 s) :
  Recommend.reportedProfileScore (s, Recommend.scoreForProfile s profile)
  = Fin 50.
Proof.
  assert (H50 : (50 <= 50 <= 50)%Q) by (split; apply Qle_refl).
  pose proof (scoreForProfile_convex 50 50 s profile H50 Hneutral) as Hw.
  unfold Recommend.reportedProfileScore. cbn [snd].
  destruct (Recommend.scoreForProfile s profile) as [| | |x]; simpl in Hw;
    try contradiction.
  rewrite Math_round_Fin. f_equal. change 50%Q with (inject_Z 50).
  apply roundQ_eq_iff. change (inject_Z 50) with 50%Q. lra.
Qed.

Lemma neutral_record_scores_50_witness :
  Recommend.reportedProfileScore
    (Samples.stock 1 "ACME" None None None None None (Some (Fin 50)),
     Recommend.scoreForProfile
       (Samples.stock 1 "ACME" None None None None None (Some (Fin 50)))
       Recommend.conservative)
  = Fin 50.
Proof.
  apply neutral_record_scores_50.
  unfold recordWithin, storedWithin. simpl. repeat split; discriminate.
Defined.

Lemma n_finite (o : option number) : exists x : Q, Recommend.n o = Fin x.
Proof.
  destruct o as [[| | |x]|]; simpl; eauto.
Qed.

Lemma scoreForProfile_finite (s : Recommend.StockRecord)
  (profile : Recommend.RiskProfile) :
  exists x : Q, Recommend.scoreForProfile s profile = Fin x.
Proof.
  unfold Recommend.scoreForProfile.
  destruct (n_finite (Recommend.toneScore s)) as (t & ->).
  destruct (n_finite (Recommend.growthScore s)) as (g & ->).
  destruct (n_finite (Recommend.profitabilityScore s)) as (p & ->).
  destruct (n_finite (Recommend.valuationScore s)) as (v & ->).
  destruct (n_finite (Recommend.balanceScore s)) as (b & ->).
  destruct (n_finite (Recommend.healthScore s)) as (h & ->).
  destruct profile; cbn [JS.mul JS.add]; eauto.
Qed.

Lemma insertBy_perm {A : Type} (cmp : A -> A -> number) (x : A) (l : list A) :
  Permutation (Recommend.insertBy cmp x l) (x :: l).
Proof.
  induction l as [|y rest IH]; cbn [Recommend.insertBy]; [reflexivity|].
  destruct (cmp x y >? Fin 0); [|reflexivity].
  rewrite IH. apply perm_swap.
Qed.

Lemma sortBy_perm {A : Type} (cmp : A -> A -> number) (l : list A) :
  Permutation (Recommend.sortBy cmp l) l.
Proof.
  induction l as [|x rest IH]; simpl; [reflexivity|].
  rewrite insertBy_perm. now constructor.
Qed.

(** The comparator of the route on two finite profile scores. *)
Lemma byProfileScoreDesc_pos (x y : Recommend.Scored) (a b : Q) :
  snd x = Fin a -> snd y = Fin b ->
  (Recommend.byProfileScoreDesc x y >? Fin 0) = true <-> (a < b)%Q.
Proof.
  intros Ex Ey. unfold Recommend.byProfileScoreDesc, gtb. rewrite Ex, Ey.
  cbn [JS.sub JS.add JS.neg]. rewrite ltb_Fin_true. split; intro; lra.
Qed.

Lemma insertBy_sorted (x : Recommend.Scored) (l : list Recommend.Scored) :
  (exists a, snd x = Fin a) ->
  Forall (fun y => exists b, snd y = Fin b) l ->
  StronglySorted rankedBefore l ->
  StronglySorted rankedBefore
    (Recommend.insertBy Recommend.byProfileScoreDesc x l).
Proof.
  intros (a & Ea) Hfin Hsorted.
  induction Hsorted as [|y rest Hrest IH Hy]; cbn [Recommend.insertBy].
  - repeat constructor.
  - inversion Hfin as [|y' rest' (b & Eb) Hfin']; subst.
    destruct (Recommend.byProfileScoreDesc x y >? Fin 0) eqn:E.
    + apply (byProfileScoreDesc_pos x y a b Ea Eb) in E.
      constructor; [now apply IH|].
      rewrite insertBy_perm. constructor; [|exact Hy].
      unfold rankedBefore. rewrite Ea, Eb. apply leb_Fin_true. lra.
    + assert (Hba : (b <= a)%Q).
      { apply Qnot_lt_le. intro Hlt.
        apply (byProfileScoreDesc_pos x y a b Ea Eb) in Hlt. congruence. }
      constructor; [now constructor|].
      constructor.
      * unfold rankedBefore. rewrite Ea, Eb. now apply leb_Fin_true.
      * rewrite Forall_forall in Hy, Hfin' |- *. intros z Hz.
        destruct (Hfin' z Hz) as (c & Ec).
        specialize (Hy z Hz). unfold rankedBefore in *.
        rewrite Ec, Eb in Hy. rewrite Ec, Ea.
        apply leb_Fin_true in Hy. apply leb_Fin_true. lra.
Qed.

Lemma sortBy_sorted (l : list Recommend.Scored) :
  Forall (fun y => exists b, snd y = Fin b) l ->
  StronglySorted rankedBefore (Recommend.sortBy Recommend.byProfileScoreDesc l).
Proof.
  induction 1 as [|x rest Hx Hrest IH]; simpl; [constructor|].
  apply insertBy_sorted; [exact Hx| |exact IH].
  now rewrite sortBy_perm.
Qed.

Lemma StronglySorted_app_inv {A : Type} (R : A -> A -> Prop) (l1 l2 : list A) :
  StronglySorted R (l1 ++ l2) ->
  StronglySorted R l1
  /\ (forall x y, In x l1 -> In y l2 -> R x y).
Proof.
  induction l1 as [|a l1 IH]; simpl; intro Hs.
  - split; [constructor|]. intros x y [].
  - inversion Hs as [|a' l' Hs' Ha]; subst.
    destruct (IH Hs') as [IH1 IH2]. split.
    + constructor; [exact IH1|].
      rewrite Forall_forall in Ha |- *. intros z Hz. apply Ha.
      apply in_or_app. now left.
    + intros x y [<- | Hx] Hy.
      * rewrite Forall_forall in Ha. apply Ha, in_or_app. now right.
      * now apply IH2.
Qed.

(** X17. The ranking returns at most eight entries (all of them when at
    most eight records have a health score); each entry is a stored record
    that has a health score, paired with its own profile score. *)
Theorem scored_members
  (stocks : list Recommend.StockRecord) (profile : Recommend.RiskProfile) :
  List.length (Recommend.scored stocks profile)
  = Nat.min 8
      (List.length
         (filter
            (fun s =>
               match Recommend.healthScore s with
               | Some _ => true
               | None => false
               end) stocks))
  /\ (forall x : Recommend.Scored,
        In x (Recommend.scored stocks profile) ->
        In (fst x) stocks
        /\ Recommend.healthScore (fst x) <> None
        /\ snd x = Recommend.scoreForProfile (fst x) profile).
Proof.
  unfold Recommend.scored. split.
  - rewrite length_firstn.
    rewrite (Permutation_length (sortBy_perm _ _)), length_map. reflexivity.
  - intros x Hx.
    assert (Hx' : In x (Recommend.sortBy Recommend.byProfileScoreDesc
                          (map (fun s => (s, Recommend.scoreForProfile s profile))
                             (filter
                                (fun s =>
                                   match Recommend.healthScore s with
                                   | Some _ => true
                                   | None => false
                                   end) stocks)))).
    { rewrite <- (firstn_skipn 8). apply in_or_app. now left. }
    clear Hx. rename Hx' into Hx.
    apply (Permutation_in _ (sortBy_perm _ _)) in Hx.
    apply in_map_iff in Hx. destruct Hx as (s & <- & Hs).
    apply filter_In in Hs. destruct Hs as [Hin Hh]. simpl.
    repeat split; [exact Hin|]. destruct (Recommend.healthScore s);
      [discriminate|discriminate Hh].
Qed.


(* ================================================================== *)
(** ** The sibling model: helpers *)

Lemma zToScore_Fin (z : Q) :
  Analyst.zToScore (Fin z)
  = Fin (roundQ (((if Qle_bool 3 z then 3
                   else if Qle_bool (-3) z then z else -3) + 3) / 6 * 100)).
Proof.
  unfold Analyst.zToScore, Math_min, Math_max. cbn [leb].
  destruct (Qle_bool 3 z); cbn [leb]; [reflexivity|].
  destruct (Qle_bool (-3) z); reflexivity.
Qed.



Lemma clamp01_Fin (x : Q) : Analyst.clamp01 (Fin x) = Fin (clamp01Q x).
Proof.
  unfold Analyst.clamp01, clamp01Q, gtb. cbn [ltb].
  destruct (Qle_bool 0 x); cbn [negb]; [|reflexivity].
  destruct (Qle_bool x 1); reflexivity.
Qed.

Lemma clamp01Q_bounds (x : Q) : (0 <= clamp01Q x <= 1)%Q.
Proof. unfold clamp01Q. qcases; lra. Qed.

Lemma clamp01Q_mono (x y : Q) : (x <= y)%Q -> (clamp01Q x <= clamp01Q y)%Q.
Proof. intro Hxy. unfold clamp01Q. qcases; lra. Qed.

(** [toScore] on a finite value and a proper band. *)
Lemma toScore_Fin (v mn mx : Q) (invert : bool) :
  (mn < mx)%Q ->
  Analyst.toScore (Some (Fin v)) (Fin mn) (Fin mx) invert
  = Some (Fin (roundQ
                 ((if invert
                   then 1 - clamp01Q ((v - mn) / (mx - mn))
                   else clamp01Q ((v - mn) / (mx - mn))) * 100))).
Proof.
  intro Hband. unfold Analyst.toScore. cbn [Callers.strictEq].
  assert (E1 : Qeq_bool mx mn = false) by (apply Qeq_bool_false; lra).
  assert (E2 : Qeq_bool (mx + - mn) 0 = false) by (apply Qeq_bool_false; lra).
  rewrite E1. cbn [JS.sub JS.add JS.neg JS.div]. rewrite E2, clamp01_Fin.
  destruct invert; reflexivity.
Qed.

Lemma toScore_ratio_mono (mn mx v1 v2 : Q) :
  (mn < mx)%Q -> (v1 <= v2)%Q ->
  (clamp01Q ((v1 - mn) / (mx - mn))
   <= clamp01Q ((v2 - mn) / (mx - mn)))%Q.
Proof.
  intros Hband Hv. apply clamp01Q_mono. unfold Qdiv.
  apply Qmult_le_compat_r; [lra|].
  apply Qlt_le_weak, Qinv_lt_0_compat. lra.
Qed.

Lemma roundQ_percent (r : Q) :
  (0 <= r <= 1)%Q -> (0 <= roundQ (r * 100) <= 100)%Q.
Proof.
  intro Hr. apply (roundQ_between 0 100).
  change (inject_Z 0) with 0%Q. change (inject_Z 100) with 100%Q. lra.
Qed.

Lemma toScore_percent (v : option number) (mn mx : Q) (invert : bool) :
  (mn < mx)%Q -> finiteOrAbsent v ->
  percentOrNull (Analyst.toScore v (Fin mn) (Fin mx) invert).
Proof.
  intros Hband Hv. destruct v as [[| | |x]|]; simpl in Hv; try contradiction;
    [|exact I].
  rewrite toScore_Fin by exact Hband. cbn [percentOrNull].
  pose proof (clamp01Q_bounds ((x - mn) / (mx - mn))).
  apply roundQ_percent. destruct invert; lra.
Qed.





(* ================================================================== *)
(** ** The sibling model: scores *)

Lemma clean_cases (o : option number) :
  Analyst.clean o = None \/ exists x : Q, Analyst.clean o = Some (Fin x).
Proof.
  destruct o as [[| | |x]|]; simpl; eauto.
Qed.

Lemma zToScore_percent (x : Q) : within 0 100 (Analyst.zToScore (Fin x)).
Proof.
  rewrite zToScore_Fin. cbn [within]. apply (roundQ_between 0 100).
  change (inject_Z 0) with 0%Q. change (inject_Z 100) with 100%Q.
  qcases; const_div; lra.
Qed.

Lemma averageOr50_percent (parts : list number) :
  Forall (within 0 100) parts -> within 0 100 (Analyst.averageOr50 parts).
Proof.
  intro Hparts. unfold Analyst.averageOr50.
  destruct parts as [|x rest]; [simpl; lra|].
  exact (mean_within 0 100 x rest Hparts).
Qed.

Lemma pushed_percent (o : option number) :
  percentOrNull o -> Forall (within 0 100) (Analyst.pushed o).
Proof.
  destruct o as [[| | |x]|]; simpl; try contradiction; repeat constructor;
    lra.
Qed.

(** The part both the tone and the balance derive from the position in the
    52-week range is a percentage. *)
Lemma rangePosition_finite (lo hi : Q) :
  Qeq_bool (lo + - hi) 0 = false ->
  (Fin lo / (Fin lo - Fin hi))%js = Fin (lo / (lo + - hi)).
Proof.
  intro E. cbn [JS.sub JS.add JS.neg JS.div]. now rewrite E.
Qed.

Lemma toneOf_percent (d1 d30 lo hi : option number) :
  within 0 100
    (Analyst.toneOf (Analyst.clean d1) (Analyst.clean d30)
       (Analyst.clean lo) (Analyst.clean hi)).
Proof.
  unfold Analyst.toneOf. apply averageOr50_percent.
  repeat (apply Forall_app; split).
  - destruct (clean_cases d1) as [-> | (x & ->)]; [constructor|].
    repeat constructor. cbn [JS.div]. apply zToScore_percent.
  - destruct (clean_cases d30) as [-> | (x & ->)]; [constructor|].
    repeat constructor. cbn [JS.div]. apply zToScore_percent.
  - destruct (clean_cases lo) as [-> | (l & ->)]; [constructor|].
    destruct (clean_cases hi) as [-> | (h & ->)]; [constructor|].
    cbn [JS.sub JS.add JS.neg Callers.strictEq].
    destruct (Qeq_bool (l + - h) 0) eqn:E; cbn [negb]; [constructor|].
    repeat constructor. cbn [JS.div]. rewrite E, clamp01_Fin.
    cbn [JS.mul]. rewrite Math_round_Fin. cbn [within].
    apply roundQ_percent, clamp01Q_bounds.
Qed.

Lemma clean_finiteOrAbsent (o : option number) :
  finiteOrAbsent (Analyst.clean o).
Proof. destruct o as [[| | |x]|]; exact I. Qed.

Lemma growthOf_percent (d30 mcap : option number) :
  within 0 100 (Analyst.growthOf (Analyst.clean d30) (Analyst.clean mcap)).
Proof.
  unfold Analyst.growthOf. apply averageOr50_percent.
  apply Forall_app. split.
  - apply pushed_percent, toScore_percent;
      [reflexivity|apply clean_finiteOrAbsent].
  - destruct (Analyst.clean mcap) eqn:E; [|constructor].
    rewrite <- E. apply pushed_percent, toScore_percent;
      [reflexivity|apply clean_finiteOrAbsent].
Qed.

Lemma profitabilityOf_percent (d30 mcap : option number) :
  within 0 100
    (Analyst.profitabilityOf (Analyst.clean d30) (Analyst.clean mcap)).
Proof.
  unfold Analyst.profitabilityOf. apply averageOr50_percent.
  apply Forall_app. split.
  - destruct (Analyst.clean mcap) eqn:E; [|constructor].
    rewrite <- E. apply pushed_percent, toScore_percent;
      [reflexivity|apply clean_finiteOrAbsent].
  - destruct (Analyst.clean d30) eqn:E; [|constructor].
    rewrite <- E. apply pushed_percent, toScore_percent;
      [reflexivity|apply clean_finiteOrAbsent].
Qed.

(** The valuation score is the inverted band score over [5, 60]. *)
Lemma valuationOf_Fin (p : Q) :
  Analyst.valuationOf (Some (Fin p))
  = Fin (roundQ ((1 - clamp01Q ((p - 5) / (60 - 5))) * 100)).
Proof.
  unfold Analyst.valuationOf. rewrite toScore_Fin by reflexivity.
  unfold gtb. cbn [ltb]. destruct (Qle_bool p 80) eqn:E; cbn [negb];
    [reflexivity|].
  apply Qle_bool_false in E.
  assert (Hc : clamp01Q ((p - 5) / (60 - 5)) = 1%Q).
  { unfold clamp01Q.
    assert (Hr : (1 < (p - 5) / (60 - 5))%Q).
    { apply Qlt_shift_div_l; [reflexivity|lra]. }
    assert (E0 : Qle_bool 0 ((p - 5) / (60 - 5)) = true)
      by (apply Qle_bool_iff; lra).
    assert (E1 : Qle_bool ((p - 5) / (60 - 5)) 1 = false)
      by (apply Qle_bool_false; lra).
    now rewrite E0, E1. }
  rewrite Hc. reflexivity.
Qed.

Lemma valuationOf_percent (pe : option number) :
  within 0 100 (Analyst.valuationOf (Analyst.clean pe)).
Proof.
  destruct (clean_cases pe) as [-> | (p & ->)]; [simpl; lra|].
  rewrite valuationOf_Fin. cbn [within].
  pose proof (clamp01Q_bounds ((p - 5) / (60 - 5))).
  apply roundQ_percent. lra.
Qed.

Lemma balanceOf_percent (lo hi : option number) (v : number) :
  within 0 100 v ->
  within 0 100 (Analyst.balanceOf (Analyst.clean lo) (Analyst.clean hi) v).
Proof.
  intro Hv. unfold Analyst.balanceOf. apply averageOr50_percent.
  apply Forall_app. split; [|repeat constructor; exact Hv].
  destruct (clean_cases lo) as [-> | (l & ->)]; [constructor|].
  destruct (clean_cases hi) as [-> | (h & ->)]; [constructor|].
  cbn [JS.sub JS.add JS.neg Callers.strictEq].
  destruct (Qeq_bool (l + - h) 0) eqn:E; cbn [negb]; [constructor|].
  repeat constructor. cbn [JS.div]. rewrite E.
  cbn [JS.sub JS.add JS.neg Math_abs JS.mul]. rewrite clamp01_Fin.
  cbn [JS.sub JS.add JS.neg JS.mul]. rewrite Math_round_Fin. cbn [within].
  match goal with
  | |- context [clamp01Q ?x] => pose proof (clamp01Q_bounds x)
  end.
  apply roundQ_percent. lra.
Qed.

Lemma healthOf_percent (t g p v b : number) :
  within 0 100 t -> within 0 100 g -> within 0 100 p ->
  within 0 100 v -> within 0 100 b ->
  within 0 100 (Analyst.healthOf t g p v b).
Proof.
  intros Ht Hg Hp Hv Hb.
  apply within_Fin in Ht, Hg, Hp, Hv, Hb.
  destruct Ht as (t' & -> & Bt), Hg as (g' & -> & Bg), Hp as (p' & -> & Bp),
    Hv as (v' & -> & Bv), Hb as (b' & -> & Bb).
  unfold Analyst.healthOf. cbn [JS.mul JS.add].
  change (Fin ?x / Fin 1)%js with (Fin (x / 1)).
  rewrite Math_round_Fin. cbn [within]. apply (roundQ_between 0 100).
  change (inject_Z 0) with 0%Q. change (inject_Z 100) with 100%Q.
  const_div. lra.
Qed.

Lemma ratingAndConviction_percent (h b g v : Q) :
  (0 <= h <= 100)%Q -> (0 <= b <= 100)%Q -> (0 <= g <= 100)%Q ->
  within 0 100
    (snd (Analyst.ratingAndConviction (Fin h) (Fin b) (Fin g) (Fin v))).
Proof.
  intros Hh Hb Hg. unfold Analyst.ratingAndConviction, geb.
  cbn [leb JS.add JS.sub JS.neg Math_abs].
  destruct (_ && _ && _ && _) eqn:Ebuy; cbn [snd].
  - change (Fin ?x / Fin 3)%js with (Fin (x / 3)).
    rewrite Math_round_Fin. cbn [within]. apply (roundQ_between 0 100).
    change (inject_Z 0) with 0%Q. change (inject_Z 100) with 100%Q.
    const_div. lra.
  - destruct (_ || _ || _) eqn:Esell; cbn [snd].
    + change (Fin ?x / Fin 2)%js with (Fin (x / 2)).
      rewrite Math_round_Fin. cbn [within]. apply (roundQ_between 0 100).
      change (inject_Z 0) with 0%Q. change (inject_Z 100) with 100%Q.
      const_div. lra.
    + change (Fin ?x / Fin 1.2)%js with (Fin (x / 1.2)).
      rewrite Math_round_Fin. cbn [within]. apply (roundQ_between 0 100).
      change (inject_Z 0) with 0%Q. change (inject_Z 100) with 100%Q.
      match goal with
      | |- context [Qabs ?x] =>
          pose proof (Qabs_nonneg x);
          assert (Qabs x <= 50)%Q by (apply Qabs_case; intros; lra)
      end.
      const_div. lra.
Qed.




(** X24. A snapshot whose six inputs are all missing or not finite gets the
    neutral result of the sibling model: every score 50, HOLD, conviction
    50 and the single standard caveat. *)
Theorem analyst_without_data_is_neutral `{Host} (s : Analyst.MarketSnapshot)
  (Hd1 : Analyst.clean (Analyst.change1d s) = None)
  (Hd30 : Analyst.clean (Analyst.change1m s) = None)
  (Hlow : Analyst.clean (Analyst.changeFrom52wLowPct s) = None)
  (Hhigh : Analyst.clean (Analyst.changeFrom52wHighPct s) = None)
  (Hcap : Analyst.clean (Analyst.marketCap s) = None)
  (Hpe : Analyst.clean (Analyst.peRatio s) = None) :
  toneScore (Analyst.computeQuantAnalysis (Some s)) = Fin 50
  /\ growthScore (Analyst.computeQuantAnalysis (Some s)) = Fin 50
  /\ profitabilityScore (Analyst.computeQuantAnalysis (Some s)) = Fin 50
  /\ valuationScore (Analyst.computeQuantAnalysis (Some s)) = Fin 50
  /\ balanceScore (Analyst.computeQuantAnalysis (Some s)) = Fin 50
  /\ healthScore (Analyst.computeQuantAnalysis (Some s)) = Fin 50
  /\ rating (Analyst.computeQuantAnalysis (Some s)) = HOLD
  /\ conviction (Analyst.computeQuantAnalysis (Some s)) = Fin 50
  /\ keyRisks (Analyst.computeQuantAnalysis (Some s))
     = ["Standard market, macro, and company-specific risks apply."%string].
Proof.
  unfold Analyst.computeQuantAnalysis.
  cbn [toneScore growthScore profitabilityScore valuationScore balanceScore
       healthScore rating conviction keyRisks].
  rewrite Hd1, Hd30, Hlow, Hhigh, Hcap, Hpe.
  repeat split.
Qed.

Lemma analyst_without_data_is_neutral_witness :
  conviction
    (Analyst.computeQuantAnalysis (H := sampleHost)
       (Some (Samples.analystSnapshot None (Some NaN) None None
                (Some PosInf) None)))
  = Fin 50.
Proof.
  apply (analyst_without_data_is_neutral (H := sampleHost)
           (Samples.analystSnapshot None (Some NaN) None None
              (Some PosInf) None));
    reflexivity.
Defined.

(* ================================================================== *)
(** ** Direction of the valuation and risk scores *)





(* ================================================================== *)
(** ** Enrichment and the engine *)

Lemma orElse_keeps (x other : option number) :
  x <> None -> Fetch.orElse x other = x.
Proof. destruct x; [reflexivity|contradiction]. Qed.

Lemma orElse_null (x other : option number) :
  Fetch.orElse x other = None -> x = None.
Proof. destruct x; [discriminate|reflexivity]. Qed.

(** Which data-completeness caveats the list holds. *)
Lemma keyRisksOf_caveats (s : MarketSnapshot) :
  (In riskProfitability (keyRisksOf s)
   <-> profitMargin s = None \/ roe s = None)
  /\ (In riskGrowth (keyRisksOf s)
      <-> revenueGrowth s = None \/ epsGrowth s = None).
Proof.
  unfold keyRisksOf.
  destruct (profitMargin s), (roe s), (revenueGrowth s), (epsGrowth s);
    cbn [isNull orb app List.length Nat.eqb In];
    repeat split; intros;
    repeat match goal with
    | Hc : _ \/ _ |- _ => destruct Hc
    | Hc : False |- _ => contradiction
    | Hc : Some _ = None |- _ => discriminate Hc
    | Hc : riskProfitability = _ |- _ => discriminate Hc
    | Hc : riskGrowth = _ |- _ => discriminate Hc
    | Hc : riskGeneric = _ |- _ => discriminate Hc
    end;
    try discriminate; auto.
Qed.

(** X27. Enrichment only fills missing fundamentals: whatever FMP returns,
    the valuation, tone and risk scores of the enriched snapshot are those
    of the base snapshot, enrichment never adds a data-completeness caveat,
    and a base snapshot that already has its four fundamentals gets the
    same analysis as before. *)
Theorem enrichment_only_fills_fundamentals `{Host}
  (fmp : option Fetch.FmpRatios) (base : MarketSnapshot) :
  valuationScore (computeQuantAnalysis (Fetch.enrichWithFmp fmp base))
  = valuationScore (computeQuantAnalysis base)
  /\ toneScore (computeQuantAnalysis (Fetch.enrichWithFmp fmp base))
     = toneScore (computeQuantAnalysis base)
  /\ scoreRisk (Fetch.enrichWithFmp fmp base) = scoreRisk base
  /\ (In riskProfitability
        (keyRisks (computeQuantAnalysis (Fetch.enrichWithFmp fmp base))) ->
      In riskProfitability (keyRisks (computeQuantAnalysis base)))
  /\ (In riskGrowth
        (keyRisks (computeQuantAnalysis (Fetch.enrichWithFmp fmp base))) ->
      In riskGrowth (keyRisks (computeQuantAnalysis base)))
  /\ (profitMargin base <> None -> roe base <> None ->
      revenueGrowth base <> None -> epsGrowth base <> None ->
      computeQuantAnalysis (Fetch.enrichWithFmp fmp base)
      = computeQuantAnalysis base).
Proof.
  destruct fmp as [row|].
  2: { repeat split; auto. }
  split; [reflexivity|]. split; [reflexivity|]. split; [reflexivity|].
  split; [|split].
  - intro Hin.
    change (In riskProfitability (keyRisksOf (Fetch.enrichWithFmp (Some row) base)))
      in Hin.
    change (In riskProfitability (keyRisksOf base)).
    apply (proj1 (proj1 (keyRisksOf_caveats _))) in Hin.
    apply (proj1 (keyRisksOf_caveats base)).
    cbn [Fetch.enrichWithFmp profitMargin roe] in Hin.
    destruct Hin as [Hn | Hn]; apply orElse_null in Hn; auto.
  - intro Hin.
    change (In riskGrowth (keyRisksOf (Fetch.enrichWithFmp (Some row) base)))
      in Hin.
    change (In riskGrowth (keyRisksOf base)).
    apply (proj1 (proj2 (keyRisksOf_caveats _))) in Hin.
    apply (proj2 (keyRisksOf_caveats base)).
    cbn [Fetch.enrichWithFmp revenueGrowth epsGrowth] in Hin.
    destruct Hin as [Hn | Hn]; apply orElse_null in Hn; auto.
  - intros Hm Hr Hrev Heps. apply computeQuantAnalysis_reads.
    unfold sameInputs. cbn [Fetch.enrichWithFmp ticker companyName price
      fiftyTwoWeekHigh fiftyTwoWeekLow change1dPct changeFrom52wHighPct
      fiftyTwoWeekChangePct marketCap peRatio pegRatio priceToSales
      priceToBook profitMargin roe revenueGrowth epsGrowth beta].
    rewrite !orElse_keeps by assumption. repeat split.
Qed.

Lemma enrichment_only_fills_fundamentals_witness :
  computeQuantAnalysis (H := sampleHost)
    (Fetch.enrichWithFmp
       (Some {| Fetch.profitMarginTTM := Some (Fin 0.3);
                Fetch.roeTTM := None;
                Fetch.revenueGrowthTTM := Some (Fin 0.4);
                Fetch.epsGrowthTTM := Some (Fin 0.4) |})
       (Samples.withFundamentals 0.1 0.1 0.05 0.05 0 0))
  = computeQuantAnalysis (H := sampleHost)
      (Samples.withFundamentals 0.1 0.1 0.05 0.05 0 0).
Proof.
  apply (enrichment_only_fills_fundamentals (H := sampleHost)); discriminate.
Defined.

Lemma keyRisks_shape_witness :
  In riskGeneric
    (keyRisks
       (computeQuantAnalysis (H := sampleHost)
          (Samples.withFundamentals 0.1 0.1 0.05 0.05 0 0))).
Proof.
  apply (keyRisks_shape (H := sampleHost)). repeat split; discriminate.
Defined.


Lemma scored_members_witness :
  List.length
    (Recommend.scored
       [Samples.stock 1 "AAA" None None None None None (Some (Fin 40));
        Samples.stock 2 "BBB" None None None None None None;
        Samples.stock 3 "CCC" None None None None None (Some (Fin 90))]
       Recommend.balanced) = 2%nat.
Proof.
  exact (proj1 (scored_members
                  [Samples.stock 1 "AAA" None None None None None (Some (Fin 40));
                   Samples.stock 2 "BBB" None None None None None None;
                   Samples.stock 3 "CCC" None None None None None (Some (Fin 90))]
                  Recommend.balanced)).
Defined.


Example scored_sample :
  map (fun x => (Recommend.ticker (fst x), Recommend.reportedProfileScore x))
    (Recommend.scored
       [Samples.stock 1 "AAA" None None None None None (Some (Fin 40));
        Samples.stock 2 "BBB" None None None None None None;
        Samples.stock 3 "CCC" None None None None None (Some (Fin 90))]
       Recommend.balanced)
  = [("CCC"%string, Fin 60); ("AAA"%string, Fin 48)].
Proof. reflexivity. Qed.
